(** * Verification of [google_trends.py]

    A shallow embedding of the two functions of the module,
    [DateToISOString] and [GetQueryVolumes], together with the part of the
    Python library they rely on ([datetime.strptime], [strftime], [range],
    slicing, [dict], [set], [sorted]) and of the remote service they talk
    to.

    Conventions of the model.
    - A Python string is a [string]: a sequence of characters whose code
      points are below 256.
    - [datetime.strptime] and [strftime] follow CPython 3 ([_strptime.py])
      in the C locale: a format is compiled to a pattern anchored at the
      start, matched case-insensitively, the whole input has to be
      consumed and the fields have to form a date of the proleptic
      Gregorian calendar; [strftime] hands the fields to the C library,
      which writes the year in decimal without leading zeros (999 for
      the year 999) and the month and the day on two digits.
    - The keyword arguments of [GetQueryVolumes] are passed explicitly;
      counts are integers.
    - A raised exception is a value of [Exn]; a computation that may raise
      returns a [Result].
    - Calls that leave the process (building the service, executing a
      request, sleeping) are recorded, in order, in a trace of [Event]s;
      the remote side is an arbitrary function of the interaction so far. *)

From Stdlib Require Import ZArith Ascii String List Lia Bool.
From stdpp Require Import base option list strings gmap sorting.

Local Open Scope Z_scope.

(** ** Exceptions and results *)

Inductive Exn :=
| ValueError (msg : string)
| TransportError (info : string).

Inductive Result (A : Type) :=
| Ok (a : A)
| Raise (e : Exn).
Arguments Ok {A} a.
Arguments Raise {A} e.

(** The three [ValueError]s of the module, under the names the
    specification gives them. *)
Definition ConfigurationError : Exn := ValueError "API_KEY not set.".
Definition InvalidArgument : Exn :=
  ValueError "geo_type must be one of 'country', 'region' or 'dma'".
Definition InvalidDateFormat : Exn :=
  ValueError "Date doesn't match any of '%b %d %Y', '%b %Y', '%Y'.".

(** ** Characters *)

Module Char.

Definition code (c : ascii) : nat := nat_of_ascii c.

(** [\s] of a [str] pattern: the characters for which [str.isspace]
    holds; below 256 these are TAB..CR, FS..US, SPACE, NEL and NBSP. *)
Definition is_space (c : ascii) : bool :=
  let n := code c in
  ((9 <=? n) && (n <=? 13) || (28 <=? n) && (n <=? 32)
   || (n =? 133) || (n =? 160))%nat.

(** [\d]: below 256 the only decimal digits are [0-9]. *)
Definition is_digit (c : ascii) : bool :=
  let n := code c in ((48 <=? n) && (n <=? 57))%nat.

(** [[a-b]] for two digits [a] and [b]. *)
Definition in_range (a b c : ascii) : bool :=
  ((code a <=? code c) && (code c <=? code b))%nat.

Definition digit_value (c : ascii) : Z := Z.of_nat (code c) - 48.

Definition digit_char (n : Z) : ascii := ascii_of_nat (48 + Z.to_nat n).

(** [str.lower] on one character; also the folding [re.IGNORECASE]
    applies to the letters of the month names. *)
Definition lower (c : ascii) : ascii :=
  let n := code c in
  if ((65 <=? n) && (n <=? 90))%nat then ascii_of_nat (n + 32) else c.

End Char.

(** ** [datetime]: dates, [strptime] and [strftime] *)

Record datetime := mk_datetime { year : Z; month : Z; day : Z }.

Definition is_leap (y : Z) : bool :=
  (y mod 4 =? 0) && (negb (y mod 100 =? 0) || (y mod 400 =? 0)).

Definition days_in_month (y m : Z) : Z :=
  if m =? 2 then (if is_leap y then 29 else 28)
  else if (m =? 4) || (m =? 6) || (m =? 9) || (m =? 11) then 30
  else 31.

(** The constructor [datetime(year, month, day)]: [None] is the
    [ValueError] it raises on fields outside the calendar
    ([MINYEAR = 1], [MAXYEAR = 9999]). *)
Definition datetime_new (y m d : Z) : option datetime :=
  if (1 <=? y) && (y <=? 9999) && (1 <=? m) && (m <=? 12)
     && (1 <=? d) && (d <=? days_in_month y m)
  then Some (mk_datetime y m d) else None.

(** A format string is compiled item by item ([TimeRE.pattern]): a run of
    whitespace becomes [\s+], [%b], [%d] and [%Y] become their groups and
    any other character stands for itself. *)
Inductive fmt_item :=
| Dir_b            (* (?P<b>jan|feb|...|dec) *)
| Dir_d            (* (?P<d>3[0-1]|[1-2]\d|0[1-9]|[1-9]| [1-9]) *)
| Dir_Y            (* (?P<Y>\d\d\d\d) *)
| Spaces           (* \s+ *)
| Lit (c : ascii).

Fixpoint skip_spaces (s : list ascii) : list ascii :=
  match s with
  | c :: s' => if Char.is_space c then skip_spaces s' else s
  | [] => []
  end.

(** [None]: a directive other than the three the module uses. *)
Fixpoint compile_format (f : list ascii) : option (list fmt_item) :=
  match f with
  | [] => Some []
  | c :: f' =>
      if Char.is_space c then
        match f' with
        | c' :: _ => if Char.is_space c' then compile_format f'
                     else option_map (cons Spaces) (compile_format f')
        | [] => Some [Spaces]
        end
      else if Ascii.eqb c "%" then
        match f' with
        | d :: f'' =>
            let item :=
              if Ascii.eqb d "b" then Some Dir_b
              else if Ascii.eqb d "d" then Some Dir_d
              else if Ascii.eqb d "Y" then Some Dir_Y
              else None in
            match item, compile_format f'' with
            | Some i, Some items => Some (i :: items)
            | _, _ => None
            end
        | [] => None
        end
      else option_map (cons (Lit c)) (compile_format f')
  end.

(** [LocaleTime.a_month] without its empty first entry. *)
Definition a_month : list string :=
  ["jan"; "feb"; "mar"; "apr"; "may"; "jun";
   "jul"; "aug"; "sep"; "oct"; "nov"; "dec"]%string.

(** [a_month.index(name)], counted from 1. *)
Fixpoint index_from (i : Z) (name : string) (l : list string) : option Z :=
  match l with
  | [] => None
  | x :: l' => if String.eqb x name then Some i else index_from (i + 1) name l'
  end.

Definition month_index (name : string) : option Z := index_from 1 name a_month.

(** The fields [_strptime] collects; the defaults are the ones it starts
    from. *)
Record fields := mk_fields { f_year : Z; f_month : Z; f_day : Z }.

Definition default_fields : fields := mk_fields 1900 1 1.

(** One item of the compiled pattern against the front of the input:
    the fields read so far and the input left, or [None] when the item
    does not match there. The alternatives of a group are tried in the
    order the pattern lists them and [\s+] takes all the whitespace there
    is; the first alternative that matches is kept. In the three formats
    of the module [%d] stands between two [\s+] and [%Y] comes last, so
    no other choice could make a match that this one misses. *)
Definition match_item (i : fmt_item) (s : list ascii) (t : fields)
  : option (fields * list ascii) :=
  match i with
  | Dir_b =>
      match s with
      | c1 :: c2 :: c3 :: rest =>
          let name := string_of_list_ascii
                        [Char.lower c1; Char.lower c2; Char.lower c3] in
          match month_index name with
          | Some m => Some (mk_fields (f_year t) m (f_day t), rest)
          | None => None
          end
      | _ => None
      end
  | Dir_d =>
      let set d rest := Some (mk_fields (f_year t) (f_month t) d, rest) in
      match s with
      | c1 :: c2 :: rest =>
          if Ascii.eqb c1 "3" && Char.in_range "0" "1" c2
          then set (30 + Char.digit_value c2) rest
          else if Char.in_range "1" "2" c1 && Char.is_digit c2
          then set (10 * Char.digit_value c1 + Char.digit_value c2) rest
          else if Ascii.eqb c1 "0" && Char.in_range "1" "9" c2
          then set (Char.digit_value c2) rest
          else if Char.in_range "1" "9" c1
          then set (Char.digit_value c1) (c2 :: rest)
          else if Ascii.eqb c1 " " && Char.in_range "1" "9" c2
          then set (Char.digit_value c2) rest
          else None
      | [c1] =>
          if Char.in_range "1" "9" c1 then set (Char.digit_value c1) []
          else None
      | [] => None
      end
  | Dir_Y =>
      match s with
      | c1 :: c2 :: c3 :: c4 :: rest =>
          if Char.is_digit c1 && Char.is_digit c2
             && Char.is_digit c3 && Char.is_digit c4
          then Some (mk_fields
                       (1000 * Char.digit_value c1 + 100 * Char.digit_value c2
                        + 10 * Char.digit_value c3 + Char.digit_value c4)
                       (f_month t) (f_day t), rest)
          else None
      | _ => None
      end
  | Spaces =>
      match s with
      | c :: rest => if Char.is_space c then Some (t, skip_spaces rest) else None
      | [] => None
      end
  | Lit a =>
      match s with
      | c :: rest =>
          if Ascii.eqb (Char.lower c) (Char.lower a) then Some (t, rest) else None
      | [] => None
      end
  end.

Fixpoint match_items (items : list fmt_item) (s : list ascii) (t : fields)
  : option (fields * list ascii) :=
  match items with
  | [] => Some (t, s)
  | i :: items' =>
      match match_item i s t with
      | Some (t', s') => match_items items' s' t'
      | None => None
      end
  end.

(** [datetime.datetime.strptime(data_string, format)]. [None] is the
    [ValueError] it raises: the input does not match the format, input
    is left over after the match, or the fields are not a date. *)
Definition strptime (data_string format : string) : option datetime :=
  match compile_format (list_ascii_of_string format) with
  | None => None
  | Some items =>
      match match_items items (list_ascii_of_string data_string) default_fields with
      | Some (t, []) => datetime_new (f_year t) (f_month t) (f_day t)
      | _ => None
      end
  end.

Definition zero_pad2 (n : Z) : list ascii :=
  [Char.digit_char (n / 10 mod 10); Char.digit_char (n mod 10)].

Definition zero_pad4 (n : Z) : list ascii :=
  [Char.digit_char (n / 1000 mod 10); Char.digit_char (n / 100 mod 10);
   Char.digit_char (n / 10 mod 10); Char.digit_char (n mod 10)].

(** [%Y]: the year in decimal, as many digits as it has; a [datetime]
    has a year of one to four digits. *)
Definition year_digits (n : Z) : list ascii :=
  if n <? 10 then [Char.digit_char n]
  else if n <? 100 then zero_pad2 n
  else if n <? 1000 then Char.digit_char (n / 100 mod 10) :: zero_pad2 n
  else zero_pad4 n.

(** [new_date.strftime('%Y-%m-%d')]. *)
Definition strftime_Y_m_d (dt : datetime) : string :=
  string_of_list_ascii
    (year_digits (year dt) ++ "-"%char :: zero_pad2 (month dt)
     ++ "-"%char :: zero_pad2 (day dt)).

(** ** [DateToISOString] *)

Definition DateToISOString (datestring : string) : Result string :=
  match strptime datestring "%b %d %Y" with
  | Some new_date => Ok (strftime_Y_m_d new_date)
  | None =>
      match strptime datestring "%b %Y" with
      | Some new_date => Ok (strftime_Y_m_d new_date)
      | None =>
          match strptime datestring "%Y" with
          | Some new_date => Ok (strftime_Y_m_d new_date)
          | None => Raise InvalidDateFormat
          end
      end
  end.

(** ** The remote service

    The response of [getTimelinesForHealth]: [res[u'lines']] is a list of
    lines, a line has a [u'term'] and a list of [u'points'], a point has a
    [u'date'] and a [u'value']. *)

Record Point := mk_point { p_date : string; p_value : Z }.
Record Line := mk_line { l_term : string; l_points : list Point }.
Record Response := mk_response { lines : list Line }.

(** The keyword argument that carries [geo]: one of three, by [geo_level]. *)
Inductive GeoRestriction :=
| geoRestriction_country (geo : string)
| geoRestriction_dma (geo : string)
| geoRestriction_region (geo : string).

Record Request := mk_request {
  terms : list string;
  time_startDate : string;
  time_endDate : string;
  timelineResolution : string;
  geoRestriction : GeoRestriction
}.

(** What the process does to the outside, in the order it does it. *)
Inductive Event :=
| EvBuild (serviceName version developerKey discoveryServiceUrl : string)
          (outcome : Result unit)
| EvExecute (req : Request) (outcome : Result Response)
| EvSleep (seconds : Z).

(** The environment of a call: the module global [API_KEY] ([None] is
    Python's [None]) and the world outside, which answers [build] and
    [req.execute()] as a function of what has happened so far. *)
Record Environment := mk_env {
  API_KEY : option string;
  remote_build : string -> string -> string -> string -> Result unit;
  remote_execute : list Event -> Request -> Result Response
}.

(** ** Computations: a trace of events and a result or an exception *)

Definition M (A : Type) : Type := list Event -> Result A * list Event.

Definition ret {A} (a : A) : M A := fun tr => (Ok a, tr).

Definition raise {A} (e : Exn) : M A := fun tr => (Raise e, tr).

Definition bind {A B} (m : M A) (k : A -> M B) : M B :=
  fun tr =>
    match m tr with
    | (Ok a, tr') => k a tr'
    | (Raise e, tr') => (Raise e, tr')
    end.

Notation "'let*' x := m 'in' k" := (bind m (fun x => k))
  (at level 10, x name, m at level 100, k at level 200).

Definition lift {A} (r : Result A) : M A := fun tr => (r, tr).

Definition run {A} (m : M A) : Result A * list Event := m [].

(** [apiclient.discovery.build(...)]; the service object it returns
    carries nothing the module reads. *)
Definition build (env : Environment)
    (serviceName version developerKey discoveryServiceUrl : string) : M unit :=
  fun tr =>
    let r := remote_build env serviceName version developerKey discoveryServiceUrl in
    (r, tr ++ [EvBuild serviceName version developerKey discoveryServiceUrl r]).

(** [req.execute()]. *)
Definition execute (env : Environment) (req : Request) : M Response :=
  fun tr =>
    let r := remote_execute env tr req in
    (r, tr ++ [EvExecute req r]).

(** [time.sleep(seconds)]. *)
Definition sleep (seconds : Z) : M unit :=
  fun tr => (Ok tt, tr ++ [EvSleep seconds]).

(** ** Module constants *)

Definition SERVER : string := "https://www.googleapis.com".
Definition API_VERSION : string := "v1beta".
Definition DISCOVERY_URL_SUFFIX : string :=
  "/discovery/v1/apis/trends/" +:+ API_VERSION +:+ "/rest".
Definition DISCOVERY_URL : string := SERVER +:+ DISCOVERY_URL_SUFFIX.

Definition MAX_QUERIES : nat := 30.

(** ** Python built-ins *)

(** Truth value of [API_KEY]: [None] and the empty string are false. *)
Definition truthy (v : option string) : bool :=
  match v with
  | None => false
  | Some EmptyString => false
  | Some _ => true
  end.

(** [range(start, stop, step)] for a positive step: count up from
    [start] while below [stop]; [stop] steps are always enough. *)
Fixpoint range_from (fuel start stop step : nat) : list nat :=
  match fuel with
  | O => []
  | S fuel' =>
      if (start <? stop)%nat
      then start :: range_from fuel' (start + step) stop step
      else []
  end.

Definition range (start stop step : nat) : list nat :=
  range_from stop start stop step.

(** [l[a:b]] for indices that are not negative. *)
Definition slice {A} (l : list A) (a b : nat) : list A :=
  take (b - a) (drop a l).

(** The order of [sorted] on strings: code point by code point. *)
Definition string_le (a b : string) : Prop := String.leb a b = true.

#[global] Instance string_le_dec (a b : string) : Decision (string_le a b).
Proof. unfold string_le. apply _. Defined.

Definition sorted (l : list string) : list string := merge_sort string_le l.

(** ** [GetQueryVolumes] *)

(** [dat]: a dictionary from [(query, date)] to a count. *)
Abbreviation Dat := (gmap (string * string) Z).

(** A cell of the returned rows: a string or a count. *)
Inductive Cell :=
| CStr (s : string)
| CNum (v : Z).

(** The dictionary comprehension
    [{(line[u'term'], DateToISOString(point[u'date'])): point[u'value']
      for line in res[u'lines'] for point in line[u'points']}]:
    keys are stored in the order of the loops, a later one replaces an
    earlier equal one, and an exception of [DateToISOString] ends it. *)
Fixpoint points_dict (term : string) (points : list Point) (acc : Dat)
  : Result Dat :=
  match points with
  | [] => Ok acc
  | point :: points' =>
      match DateToISOString (p_date point) with
      | Ok date => points_dict term points' (<[(term, date) := p_value point]> acc)
      | Raise e => Raise e
      end
  end.

Fixpoint lines_dict (ls : list Line) (acc : Dat) : Result Dat :=
  match ls with
  | [] => Ok acc
  | line :: ls' =>
      match points_dict (l_term line) (l_points line) acc with
      | Ok acc' => lines_dict ls' acc'
      | Raise e => Raise e
      end
  end.

Definition res_dict (res : Response) : Result Dat := lines_dict (lines res) ∅.

(** The request of one batch; [geo_level] is looked at here, once per
    batch. *)
Definition make_request (query_batch : list string)
    (start_date end_date geo geo_level frequency : string) : Result Request :=
  if String.eqb geo_level "country" then
    Ok (mk_request query_batch start_date end_date frequency
          (geoRestriction_country geo))
  else if String.eqb geo_level "dma" then
    Ok (mk_request query_batch start_date end_date frequency
          (geoRestriction_dma geo))
  else if String.eqb geo_level "region" then
    Ok (mk_request query_batch start_date end_date frequency
          (geoRestriction_region geo))
  else Raise InvalidArgument.

(** The body of [for batch_start in batch_intervals], iterated. *)
Fixpoint batch_loop (env : Environment) (queries : list string)
    (start_date end_date geo geo_level frequency : string)
    (batch_intervals : list nat) (dat : Dat) : M Dat :=
  match batch_intervals with
  | [] => ret dat
  | batch_start :: batch_intervals' =>
      let batch_end := Nat.min (batch_start + MAX_QUERIES) (length queries) in
      let query_batch := slice queries batch_start batch_end in
      let* req := lift (make_request query_batch start_date end_date
                          geo geo_level frequency) in
      let* res := execute env req in
      let* _ := sleep 1 in
      let* batch_dict := lift (res_dict res) in
      batch_loop env queries start_date end_date geo geo_level frequency
        batch_intervals' (batch_dict ∪ dat)
  end.

(** [sorted(list(set([x[1] for x in dat])))]. *)
Definition dates_of (dat : Dat) : list string :=
  sorted (elements (list_to_set ((map_to_list dat).*1.*2) : gset string)).

Definition table_row (queries : list string) (dat : Dat) (date : string)
  : list Cell :=
  CStr date :: map (fun term => CNum (default 0 (dat !! (term, date)))) queries.

Definition make_table (queries : list string) (dat : Dat) : list (list Cell) :=
  (CStr "date" :: map CStr queries) :: map (table_row queries dat) (dates_of dat).

Definition GetQueryVolumes (env : Environment) (queries : list string)
    (start_date end_date geo geo_level frequency : string)
  : M (list (list Cell)) :=
  if negb (truthy (API_KEY env)) then raise ConfigurationError
  else
    let* _ := build env "trends" API_VERSION (default EmptyString (API_KEY env))
                DISCOVERY_URL in
    let* dat := batch_loop env queries start_date end_date geo geo_level
                  frequency (range 0 (length queries) MAX_QUERIES) ∅ in
    ret (make_table queries dat).

(** ** Vocabulary of the statements *)

(** The three date patterns of the specification, as shapes of text:
    a month abbreviation in any case, runs of whitespace, a day of one or
    two digits from 1 to 31, a year of four digits. *)
Inductive pattern := FullDate | MonthYear | YearOnly.

Definition whitespace (t : list ascii) : Prop :=
  t <> [] /\ Forall (fun c => Char.is_space c = true) t.

Definition digits (t : list ascii) : Prop :=
  Forall (fun c => Char.is_digit c = true) t.

(** The number a string of digits writes. *)
Definition number (t : list ascii) : Z :=
  foldl (fun n c => 10 * n + Char.digit_value c) 0 t.

Definition month_text (m : Z) (t : list ascii) : Prop :=
  exists name : string,
    1 <= m /\ a_month !! Z.to_nat (m - 1) = Some name
    /\ map Char.lower t = list_ascii_of_string name.

Definition day_text (d : Z) (t : list ascii) : Prop :=
  digits t /\ (length t = 1 \/ length t = 2)%nat /\ number t = d /\ 1 <= d <= 31.

Definition year_text (y : Z) (t : list ascii) : Prop :=
  digits t /\ length t = 4%nat /\ number t = y.

(** [matches_pattern p l y m d]: the text [l] has the shape [p] and
    writes the year [y], the month [m] and the day [d]; a shape without
    a day stands for day 1, one without a month for January. *)
Definition matches_pattern (p : pattern) (l : list ascii) (y m d : Z) : Prop :=
  match p with
  | FullDate =>
      exists mon ws1 dd ws2 yyyy,
        l = mon ++ ws1 ++ dd ++ ws2 ++ yyyy
        /\ month_text m mon /\ whitespace ws1 /\ day_text d dd
        /\ whitespace ws2 /\ year_text y yyyy
  | MonthYear =>
      exists mon ws yyyy,
        l = mon ++ ws ++ yyyy
        /\ month_text m mon /\ whitespace ws /\ year_text y yyyy /\ d = 1
  | YearOnly => year_text y l /\ m = 1 /\ d = 1
  end.

(** What a text starts with: not a whitespace, not a digit. *)
Definition nonspace_head (l : list ascii) : Prop :=
  match l with c :: _ => Char.is_space c = false | [] => True end.

Definition nondigit_head (l : list ascii) : Prop :=
  match l with c :: _ => Char.is_digit c = false | [] => True end.

(** The three formats of [DateToISOString], compiled. *)
Definition full_items : list fmt_item := [Dir_b; Spaces; Dir_d; Spaces; Dir_Y].
Definition month_year_items : list fmt_item := [Dir_b; Spaces; Dir_Y].
Definition year_items : list fmt_item := [Dir_Y].

(** A date of the calendar [datetime] knows. *)
Definition calendar_date (y m d : Z) : Prop :=
  1 <= y <= 9999 /\ 1 <= m <= 12 /\ 1 <= d <= days_in_month y m.

(** The text [YYYY-MM-DD] of a year, a month and a day. *)
Definition iso_text (r : string) (y m d : Z) : Prop :=
  exists yyyy mm dd,
    r = string_of_list_ascii (yyyy ++ "-"%char :: mm ++ "-"%char :: dd)
    /\ year_text y yyyy
    /\ (digits mm /\ length mm = 2%nat /\ number mm = m)
    /\ (digits dd /\ length dd = 2%nat /\ number dd = d).

(** The strict order that goes with [string_le]. *)
Definition string_lt (a b : string) : Prop := String.ltb a b = true.

(** [ceil(n / d)]. *)
Definition ceil_div (n d : nat) : nat := ((n + d - 1) / d)%nat.

(** The date a data row starts with. *)
Definition row_date (row : list Cell) : option string :=
  match row with
  | CStr date :: _ => Some date
  | _ => None
  end.

(** The requests that were executed and the responses that came back,
    as recorded in a trace. *)
Definition executed_requests (tr : list Event) : list Request :=
  omap (fun ev => match ev with EvExecute req _ => Some req | _ => None end) tr.

Definition received_responses (tr : list Event) : list Response :=
  omap (fun ev => match ev with EvExecute _ (Ok res) => Some res | _ => None end) tr.

Definition pauses (tr : list Event) : list Z :=
  omap (fun ev => match ev with EvSleep n => Some n | _ => None end) tr.

(** The points of a response as entries [((term, normalized date), value)],
    line by line and point by point. *)
Definition keyed_point (term : string) (point : Point)
  : option (string * string * Z) :=
  match DateToISOString (p_date point) with
  | Ok date => Some (term, date, p_value point)
  | Raise _ => None
  end.

Definition response_points (res : Response) : list (string * string * Z) :=
  flat_map (fun line => omap (keyed_point (l_term line)) (l_points line))
    (lines res).

(** The merged mapping of the specification: every point of every
    response received, a later point replacing an earlier one with the
    same term and date. *)
Definition all_points (tr : list Event) : list (string * string * Z) :=
  flat_map response_points (received_responses tr).

Definition merged (tr : list Event) : Dat :=
  list_to_map (reverse (all_points tr)).

(** The request the loop builds for the batch that starts at
    [batch_start]. *)
Definition batch_request (queries : list string)
    (start_date end_date geo geo_level frequency : string) (batch_start : nat)
  : Result Request :=
  make_request
    (slice queries batch_start
       (Nat.min (batch_start + MAX_QUERIES) (length queries)))
    start_date end_date geo geo_level frequency.

(** The events of batches that went through: a request answered, then a
    pause. *)
Definition batch_events (exs : list (Request * Response)) : list Event :=
  flat_map (fun ex => [EvExecute ex.1 (Ok ex.2); EvSleep 1]) exs.

(** ** Sample environments and calls *)

Definition the_build : Event :=
  EvBuild "trends" API_VERSION "key" DISCOVERY_URL (Ok tt).

(** A service that answers every request with the same response. *)
Definition constant_service (res : Response) : Environment :=
  mk_env (Some "key"%string) (fun _ _ _ _ => Ok tt) (fun _ _ => Ok res).

Definition flu_cough : list string := ["flu"; "cough"]%string.

Definition flu_cough_request : Request :=
  mk_request flu_cough "2011-01-01" "2015-01-01" "week"
    (geoRestriction_country "US").

(** One point for flu, dated the way the service writes dates. *)
Definition flu_response : Response :=
  mk_response [mk_line "flu" [mk_point "Jan 01 2015" 5]].

(** The same point with its date already in ISO form. *)
Definition flu_response_iso : Response :=
  mk_response [mk_line "flu" [mk_point "2015-01-01" 5]].

(** Dates that arrive in descending order, one of them twice. *)
Definition unordered_response : Response :=
  mk_response
    [mk_line "flu" [mk_point "Mar 2015" 3; mk_point "Jan 04 2015" 1];
     mk_line "cough" [mk_point "Jan 04 2015" 2; mk_point "2014" 9]].

(** The module as it is published: [API_KEY = None]. *)
Definition unconfigured : Environment :=
  mk_env None (fun _ _ _ _ => Ok tt) (fun _ _ => Ok flu_response).

(** Thirty-one queries: two batches. *)
Definition queries31 : list string := replicate 31 "flu"%string.

Definition request_of (query_batch : list string) : Request :=
  mk_request query_batch "2011-01-01" "2015-01-01" "week"
    (geoRestriction_country "US").

(** A service whose answer to a full batch is well formed and whose
    answer to a shorter one carries a date it cannot have meant. *)
Definition second_batch_malformed : Environment :=
  mk_env (Some "key"%string) (fun _ _ _ _ => Ok tt)
    (fun _ req =>
       if (length (terms req) =? 30)%nat then Ok flu_response
       else Ok (mk_response [mk_line "flu" [mk_point "01/04/2015" 7]])).

(** Forty-five distinct queries, and a service that answers a request
    with one line per term, each with one point whose value is the number
    of terms the request carried. *)
Definition queries45 : list string :=
  map (fun i => String (ascii_of_nat (48 + i)) EmptyString) (seq 0 45).

Definition echo_response (req : Request) : Response :=
  mk_response
    (map (fun term =>
            mk_line term [mk_point "Jan 2015" (Z.of_nat (length (terms req)))])
       (terms req)).

Definition echo_service : Environment :=
  mk_env (Some "key"%string) (fun _ _ _ _ => Ok tt)
    (fun _ req => Ok (echo_response req)).

Definition table45 : list (list Cell) :=
  [CStr "date" :: map CStr queries45;
   CStr "2015-01-01" :: replicate 30 (CNum 30) ++ replicate 15 (CNum 15)].

Definition trace45 : list Event :=
  [the_build;
   EvExecute (request_of (take 30 queries45))
     (Ok (echo_response (request_of (take 30 queries45))));
   EvSleep 1;
   EvExecute (request_of (drop 30 queries45))
     (Ok (echo_response (request_of (drop 30 queries45))));
   EvSleep 1].

(** ** [main] *)

(** The three calls of [main], one after the other on the same trace, and
    the rows it hands to [outwriter.writerow], in order: those of the first
    table. The other two tables are fetched and not used. *)
Definition main (env : Environment) : M (list (list Cell)) :=
  let* us_weekly :=
    GetQueryVolumes env ["flu"; "cough"]%string
      "2011-01-01" "2015-01-01" "US" "country" "week" in
  let* ma_region_daily :=
    GetQueryVolumes env ["flu"; "cough"]%string
      "2011-01-01" "2015-01-01" "US-MA" "region" "day" in
  let* boston_dma_monthly :=
    GetQueryVolumes env ["flu"; "cough"]%string
      "2011-01-01" "2015-01-01" "506" "dma" "month" in
  ret us_weekly.

(** ** Vocabulary of the further statements *)

(** The letters [A-Z] and [a-z]. *)
Definition is_alpha (c : ascii) : bool :=
  let n := Char.code c in
  ((65 <=? n) && (n <=? 90) || (97 <=? n) && (n <=? 122))%nat.

(** Two characters that differ at most in case. *)
Definition same_letter (c c' : ascii) : Prop := Char.lower c = Char.lower c'.


(** How the loop over the batches ends. *)
Inductive Stop :=
| Completed                                   (* every batch went through *)
| Refused                                     (* [geo_level] was refused *)
| Failed (req : Request) (e : Exn)            (* [req.execute()] raised *)
| Misdated (req : Request) (res : Response).  (* a date was refused *)

(** The events of the batch the loop stopped in, and what was raised. *)
Definition stop_events (s : Stop) : list Event :=
  match s with
  | Completed | Refused => []
  | Failed req e => [EvExecute req (Raise e)]
  | Misdated req res => [EvExecute req (Ok res); EvSleep 1]
  end.

Definition stop_error (s : Stop) : option Exn :=
  match s with
  | Completed => None
  | Refused => Some InvalidArgument
  | Failed _ e => Some e
  | Misdated _ _ => Some InvalidDateFormat
  end.

Definition stop_request (s : Stop) : option Request :=
  match s with
  | Failed req _ | Misdated req _ => Some req
  | _ => None
  end.

(** The three requests of [main]. *)
Definition us_weekly_request : Request :=
  mk_request ["flu"; "cough"]%string "2011-01-01" "2015-01-01" "week"
    (geoRestriction_country "US").

Definition ma_region_daily_request : Request :=
  mk_request ["flu"; "cough"]%string "2011-01-01" "2015-01-01" "day"
    (geoRestriction_region "US-MA").

Definition boston_dma_monthly_request : Request :=
  mk_request ["flu"; "cough"]%string "2011-01-01" "2015-01-01" "month"
    (geoRestriction_dma "506").

(** Dates in the order of the calendar. *)
Definition date_compare (a b : datetime) : comparison :=
  match year a ?= year b with
  | Eq => match month a ?= month b with
          | Eq => day a ?= day b
          | c => c
          end
  | c => c
  end.

Definition is_calendar_date (dt : datetime) : Prop :=
  calendar_date (year dt) (month dt) (day dt).

(** An event whose outcome is the exception [e]. *)
Definition raised (ev : Event) (e : Exn) : Prop :=
  match ev with
  | EvBuild _ _ _ _ (Raise e') => e' = e
  | EvExecute _ (Raise e') => e' = e
  | _ => False
  end.

(** The restriction a request carries for a valid [geo_level]. *)
Definition restriction_of (geo geo_level : string) : option GeoRestriction :=
  if String.eqb geo_level "country" then Some (geoRestriction_country geo)
  else if String.eqb geo_level "dma" then Some (geoRestriction_dma geo)
  else if String.eqb geo_level "region" then Some (geoRestriction_region geo)
  else None.

(** A response all of whose dates [DateToISOString] accepts. *)
Definition well_dated (res : Response) : Prop :=
  forall line point, line ∈ lines res -> point ∈ l_points line ->
    exists date, DateToISOString (p_date point) = Ok date.

(** A response none of whose dates is of a year before 1000. *)
Definition from_year_1000 (res : Response) : Prop :=
  forall line point p y m d, line ∈ lines res -> point ∈ l_points line ->
    matches_pattern p (list_ascii_of_string (p_date point)) y m d -> 1000 <= y.

(** A text of digits without its leading zeros. *)
Fixpoint strip_zeros (t : list ascii) : list ascii :=
  match t with
  | c :: t' => if Ascii.eqb c "0" then strip_zeros t' else t
  | [] => []
  end.

(** A date of the year 999 next to one of the year 2015. *)
Definition early_response : Response :=
  mk_response [mk_line "flu" [mk_point "0999" 4; mk_point "Jan 04 2015" 1]].

(** A service that names the flu differently from the query. *)
Definition renaming_response : Response :=
  mk_response [mk_line "influenza" [mk_point "Jan 04 2015" 7]].

(** A service that tells the three requests of [main] apart by their
    resolution. *)
Definition by_resolution : Environment :=
  mk_env (Some "key"%string) (fun _ _ _ _ => Ok tt)
    (fun _ req =>
       if String.eqb (timelineResolution req) "week" then Ok flu_response
       else if String.eqb (timelineResolution req) "day"
            then Ok unordered_response
            else Ok renaming_response).

(** A service that answers the second request of a call with an error. *)
Definition second_request_fails : Environment :=
  mk_env (Some "key"%string) (fun _ _ _ _ => Ok tt)
    (fun tr req =>
       if (length (executed_requests tr) =? 0)%nat then Ok flu_response
       else Raise (TransportError "503")).

(** The same key and date twice, in two lines of one response. *)
Definition repeated_response : Response :=
  mk_response
    [mk_line "flu" [mk_point "Jan 04 2015" 1; mk_point "Jan 2015" 2];
     mk_line "flu" [mk_point "Jan 4 2015" 3]].

(** * Properties *)

(** ** Characters and digits *)

Ltac each_char c := destruct c as [[] [] [] [] [] [] [] []].

Ltac zdiv := Z.div_mod_to_equations; lia.

Ltac digit_witness :=
  let try_digit k := (exists k; split; [lia|reflexivity]) in
  first [ try_digit 0 | try_digit 1 | try_digit 2 | try_digit 3 | try_digit 4
        | try_digit 5 | try_digit 6 | try_digit 7 | try_digit 8 | try_digit 9 ].

Ltac digit_cases_of k H :=
  let Hc := fresh "Hc" in
  assert (k = 0 \/ k = 1 \/ k = 2 \/ k = 3 \/ k = 4 \/ k = 5 \/ k = 6
          \/ k = 7 \/ k = 8 \/ k = 9) as Hc by lia;
  clear H; repeat destruct Hc as [->|Hc]; try subst k.

Lemma space_not_digit (c : ascii) :
  Char.is_space c = true ->
  Char.is_digit c = false /\ Char.in_range "0" "1" c = false
  /\ Char.in_range "1" "9" c = false.
Proof. each_char c; vm_compute; intros; try discriminate; done. Qed.

Lemma digit_cases (c : ascii) :
  Char.is_digit c = true ->
  exists k, 0 <= k <= 9 /\ c = Char.digit_char k.
Proof.
  intros H; each_char c; vm_compute in H; try discriminate; clear H;
    digit_witness.
Qed.

Lemma digit_char_spec (k : Z) :
  0 <= k <= 9 ->
  Char.is_digit (Char.digit_char k) = true
  /\ Char.digit_value (Char.digit_char k) = k
  /\ Char.is_space (Char.digit_char k) = false
  /\ Char.lower (Char.digit_char k) = Char.digit_char k.
Proof.
  intros Hk.
  assert (k = 0 \/ k = 1 \/ k = 2 \/ k = 3 \/ k = 4 \/ k = 5 \/ k = 6
          \/ k = 7 \/ k = 8 \/ k = 9) as Hcases by lia.
  repeat destruct Hcases as [->|Hcases]; try subst k; by vm_compute.
Qed.

Lemma digit_not_space (c : ascii) :
  Char.is_digit c = true -> Char.is_space c = false.
Proof. intros (k & Hk & ->)%digit_cases. by apply digit_char_spec. Qed.

Lemma digit_value_range (c : ascii) :
  Char.is_digit c = true -> 0 <= Char.digit_value c <= 9.
Proof.
  intros (k & Hk & ->)%digit_cases.
  by rewrite (proj1 (proj2 (digit_char_spec k Hk))).
Qed.

Lemma zero_pad2_spec (n : Z) :
  0 <= n <= 99 ->
  digits (zero_pad2 n) /\ length (zero_pad2 n) = 2%nat /\ number (zero_pad2 n) = n.
Proof.
  intros Hn. unfold zero_pad2, digits, number.
  assert (0 <= n / 10 mod 10 <= 9) as H1 by zdiv.
  assert (0 <= n mod 10 <= 9) as H0 by zdiv.
  destruct (digit_char_spec _ H1) as (D1 & V1 & _).
  destruct (digit_char_spec _ H0) as (D0 & V0 & _).
  split; [by repeat constructor|]. split; [done|].
  simpl. rewrite V1, V0. zdiv.
Qed.

Lemma zero_pad4_spec (n : Z) :
  0 <= n <= 9999 -> year_text n (zero_pad4 n).
Proof.
  intros Hn. unfold zero_pad4, year_text, digits, number.
  assert (0 <= n / 1000 mod 10 <= 9) as H3 by zdiv.
  assert (0 <= n / 100 mod 10 <= 9) as H2 by zdiv.
  assert (0 <= n / 10 mod 10 <= 9) as H1 by zdiv.
  assert (0 <= n mod 10 <= 9) as H0 by zdiv.
  destruct (digit_char_spec _ H3) as (D3 & V3 & _).
  destruct (digit_char_spec _ H2) as (D2 & V2 & _).
  destruct (digit_char_spec _ H1) as (D1 & V1 & _).
  destruct (digit_char_spec _ H0) as (D0 & V0 & _).
  split; [by repeat constructor|]. split; [done|].
  simpl. rewrite V3, V2, V1, V0. zdiv.
Qed.

Lemma days_in_month_bound (y m : Z) : 28 <= days_in_month y m <= 31.
Proof. unfold days_in_month. repeat case_match; lia. Qed.

(** A year of four digits is written on four digits. *)
Lemma year_digits_four (y : Z) : 1000 <= y -> year_digits y = zero_pad4 y.
Proof.
  intros Hy. unfold year_digits.
  destruct (Z.ltb_spec y 10); [lia|]. destruct (Z.ltb_spec y 100); [lia|].
  destruct (Z.ltb_spec y 1000); [lia|]. done.
Qed.

(** [strftime] writes the fields of a date of the calendar, from the
    year 1000 on, as [YYYY-MM-DD]. *)
Lemma strftime_iso_text (y m d : Z) :
  calendar_date y m d -> 1000 <= y ->
  iso_text (strftime_Y_m_d (mk_datetime y m d)) y m d.
Proof.
  intros (Hy & Hm & Hd) Hy4. pose proof (days_in_month_bound y m).
  exists (zero_pad4 y), (zero_pad2 m), (zero_pad2 d).
  split; [unfold strftime_Y_m_d; simpl; by rewrite year_digits_four|].
  split; [apply zero_pad4_spec; lia|].
  split; apply zero_pad2_spec; lia.
Qed.

Lemma strftime_length (y m d : Z) :
  1000 <= y -> String.length (strftime_Y_m_d (mk_datetime y m d)) = 10%nat.
Proof.
  intros Hy. unfold strftime_Y_m_d. simpl. by rewrite year_digits_four.
Qed.

Lemma datetime_new_Some (y m d : Z) (dt : datetime) :
  datetime_new y m d = Some dt <-> calendar_date y m d /\ dt = mk_datetime y m d.
Proof.
  unfold datetime_new, calendar_date. case_match eqn:Hc.
  - repeat (apply andb_prop in Hc as [Hc ?]). split.
    + intros [= <-]. split; [lia|done].
    + by intros [_ ->].
  - split; [done|]. intros [(Hy & Hm & Hd) _].
    repeat (apply andb_false_iff in Hc as [Hc|Hc]); lia.
Qed.

(** ** The items of a format, one by one *)

Lemma compile_full :
  compile_format (list_ascii_of_string "%b %d %Y") = Some full_items.
Proof. reflexivity. Qed.

Lemma compile_month_year :
  compile_format (list_ascii_of_string "%b %Y") = Some month_year_items.
Proof. reflexivity. Qed.

Lemma compile_year :
  compile_format (list_ascii_of_string "%Y") = Some year_items.
Proof. reflexivity. Qed.

Lemma index_from_Some (i : Z) (name : string) (l : list string) (m : Z) :
  index_from i name l = Some m ->
  i <= m /\ l !! Z.to_nat (m - i) = Some name.
Proof.
  revert i. induction l as [|x l IH]; intros i; simpl; [discriminate|].
  destruct (String.eqb x name) eqn:E.
  - apply String.eqb_eq in E as ->. intros [= <-].
    rewrite Z.sub_diag. split; [lia|done].
  - intros [Hm Hl]%IH. split; [lia|].
    replace (Z.to_nat (m - i)) with (S (Z.to_nat (m - (i + 1)))) by lia. done.
Qed.

Lemma month_index_Some (name : string) (m : Z) :
  month_index name = Some m <->
  1 <= m /\ a_month !! Z.to_nat (m - 1) = Some name.
Proof.
  split.
  - apply index_from_Some.
  - intros [Hm Hname]. pose proof (lookup_lt_Some _ _ _ Hname) as Hlt.
    simpl in Hlt.
    assert (m = 1 \/ m = 2 \/ m = 3 \/ m = 4 \/ m = 5 \/ m = 6 \/ m = 7
            \/ m = 8 \/ m = 9 \/ m = 10 \/ m = 11 \/ m = 12) as Hcases by lia.
    repeat destruct Hcases as [->|Hcases]; try subst m;
      vm_compute in Hname; injection Hname as <-; reflexivity.
Qed.

Lemma in_range_0_1 (c : ascii) :
  Char.in_range "0" "1" c = true -> exists k, 0 <= k <= 1 /\ c = Char.digit_char k.
Proof.
  intros H; each_char c; vm_compute in H; try discriminate; clear H;
    digit_witness.
Qed.

Lemma in_range_1_2 (c : ascii) :
  Char.in_range "1" "2" c = true -> exists k, 1 <= k <= 2 /\ c = Char.digit_char k.
Proof.
  intros H; each_char c; vm_compute in H; try discriminate; clear H;
    digit_witness.
Qed.

Lemma in_range_1_9 (c : ascii) :
  Char.in_range "1" "9" c = true -> exists k, 1 <= k <= 9 /\ c = Char.digit_char k.
Proof.
  intros H; each_char c; vm_compute in H; try discriminate; clear H;
    digit_witness.
Qed.

Lemma nondigit_ranges (c : ascii) :
  Char.is_digit c = false ->
  Char.in_range "0" "1" c = false /\ Char.in_range "1" "9" c = false.
Proof. each_char c; vm_compute; intros; try discriminate; done. Qed.

Lemma a_month_length (n : nat) (name : string) :
  a_month !! n = Some name -> length (list_ascii_of_string name) = 3%nat.
Proof.
  unfold a_month.
  do 12 (destruct n as [|n]; [by intros [= <-]|]). discriminate.
Qed.

Lemma month_text_length (m : Z) (mon : list ascii) :
  month_text m mon -> length mon = 3%nat.
Proof.
  intros (name & _ & Hname & Hlow). apply a_month_length in Hname.
  by rewrite <- Hlow, length_map in Hname.
Qed.

(** [%b]. *)
Lemma match_item_b (m : Z) (mon rest : list ascii) (t : fields) :
  month_text m mon ->
  match_item Dir_b (mon ++ rest) t
  = Some (mk_fields (f_year t) m (f_day t), rest).
Proof.
  intros Hmon. pose proof (month_text_length _ _ Hmon) as Hlen.
  destruct Hmon as (name & Hm & Hname & Hlow).
  destruct mon as [|c1 [|c2 [|c3 [|c4 mon]]]]; try discriminate.
  cbn [match_item app].
  change [Char.lower c1; Char.lower c2; Char.lower c3]
    with (map Char.lower [c1; c2; c3]).
  rewrite Hlow, string_of_list_ascii_of_string.
  by rewrite (proj2 (month_index_Some name m)).
Qed.

Lemma match_item_b_inv (s rest : list ascii) (t t' : fields) :
  match_item Dir_b s t = Some (t', rest) ->
  exists mon m,
    s = mon ++ rest /\ month_text m mon
    /\ t' = mk_fields (f_year t) m (f_day t).
Proof.
  destruct s as [|c1 [|c2 [|c3 s]]]; try discriminate. cbn [match_item].
  destruct (month_index _) as [m|] eqn:Hm; [|discriminate].
  intros [= <- <-]. exists [c1; c2; c3], m. split; [done|]. split; [|done].
  apply month_index_Some in Hm as [Hm Hname].
  eexists. split; [done|]. split; [exact Hname|].
  by rewrite list_ascii_of_string_of_list_ascii.
Qed.

(** [\s+]. *)
Lemma skip_spaces_app (ws rest : list ascii) :
  Forall (fun c => Char.is_space c = true) ws -> nonspace_head rest ->
  skip_spaces (ws ++ rest) = rest.
Proof.
  intros Hws Hrest. induction Hws as [|c ws Hc _ IH]; simpl.
  - destruct rest as [|c rest]; [done|]. simpl in *. by rewrite Hrest.
  - by rewrite Hc.
Qed.

Lemma skip_spaces_split (s : list ascii) :
  exists ws,
    s = ws ++ skip_spaces s
    /\ Forall (fun c => Char.is_space c = true) ws
    /\ nonspace_head (skip_spaces s).
Proof.
  induction s as [|c s (ws & Hs & Hws & Hhead)]; simpl.
  - by exists [].
  - destruct (Char.is_space c) eqn:Hc.
    + exists (c :: ws). split; [simpl; congruence|]. split; [by constructor|done].
    + exists []. by repeat split.
Qed.

Lemma match_item_spaces (ws rest : list ascii) (t : fields) :
  whitespace ws -> nonspace_head rest ->
  match_item Spaces (ws ++ rest) t = Some (t, rest).
Proof.
  intros [Hne Hws] Hrest. destruct ws as [|c ws]; [done|].
  inversion_clear Hws as [|? ? Hc Hws']. cbn [match_item app].
  by rewrite Hc, skip_spaces_app.
Qed.

Lemma match_item_spaces_inv (s rest : list ascii) (t t' : fields) :
  match_item Spaces s t = Some (t', rest) ->
  exists ws, s = ws ++ rest /\ whitespace ws /\ nonspace_head rest /\ t' = t.
Proof.
  destruct s as [|c s]; [discriminate|]. cbn [match_item].
  destruct (Char.is_space c) eqn:Hc; [|discriminate]. intros [= <- <-].
  destruct (skip_spaces_split s) as (ws & Hs & Hws & Hhead).
  exists (c :: ws). split; [simpl; congruence|].
  split; [|done]. split; [done|by constructor].
Qed.

(** [%Y]. *)
Lemma match_item_Y (y : Z) (yyyy rest : list ascii) (t : fields) :
  year_text y yyyy ->
  match_item Dir_Y (yyyy ++ rest) t
  = Some (mk_fields y (f_month t) (f_day t), rest).
Proof.
  intros (Hdig & Hlen & <-).
  destruct yyyy as [|c1 [|c2 [|c3 [|c4 [|c5 yyyy]]]]]; try discriminate.
  inversion_clear Hdig as [|? ? H1 Hdig1].
  inversion_clear Hdig1 as [|? ? H2 Hdig2].
  inversion_clear Hdig2 as [|? ? H3 Hdig3].
  inversion_clear Hdig3 as [|? ? H4 _].
  cbn [match_item app]. rewrite H1, H2, H3, H4. cbn [andb].
  unfold number. cbn [foldl]. do 3 f_equal. lia.
Qed.

Lemma match_item_Y_inv (s rest : list ascii) (t t' : fields) :
  match_item Dir_Y s t = Some (t', rest) ->
  exists yyyy y,
    s = yyyy ++ rest /\ year_text y yyyy
    /\ t' = mk_fields y (f_month t) (f_day t).
Proof.
  destruct s as [|c1 [|c2 [|c3 [|c4 s]]]]; try discriminate. cbn [match_item].
  destruct (_ && _) eqn:Hd; [|discriminate]. intros [= <- <-].
  apply andb_prop in Hd as [[[H1 H2]%andb_prop H3]%andb_prop H4].
  exists [c1; c2; c3; c4]. eexists. split; [done|]. split; [|reflexivity].
  split; [by repeat constructor|]. split; [done|].
  unfold number. cbn [foldl]. lia.
Qed.

(** [%d]. The alternatives of the group are tried in their order; the
    last one, a blank and a digit, cannot start where whitespace has just
    been skipped. *)
Lemma match_item_d (d : Z) (dd rest : list ascii) (t : fields) :
  day_text d dd -> nondigit_head rest ->
  match_item Dir_d (dd ++ rest) t
  = Some (mk_fields (f_year t) (f_month t) d, rest).
Proof.
  intros (Hdig & Hlen & <- & Hd) Hrest. unfold number in *.
  destruct dd as [|c1 [|c2 [|c3 dd]]]; simpl in Hlen; try lia.
  - inversion_clear Hdig as [|? ? H1 _].
    apply digit_cases in H1 as (k & Hk & ->). cbn [foldl] in *.
    rewrite (proj1 (proj2 (digit_char_spec k Hk))) in *.
    destruct rest as [|c2 rest].
    + digit_cases_of k Hk; try lia; vm_compute; reflexivity.
    + simpl in Hrest. apply nondigit_ranges in Hrest as Hr. destruct Hr as [Hr1 Hr2].
      cbn [match_item app]. rewrite Hrest, Hr1, Hr2.
      digit_cases_of k Hk; try lia; vm_compute; reflexivity.
  - inversion_clear Hdig as [|? ? H1 Hdig1].
    inversion_clear Hdig1 as [|? ? H2 _].
    apply digit_cases in H1 as (k1 & Hk1 & ->).
    apply digit_cases in H2 as (k2 & Hk2 & ->). cbn [foldl] in *.
    rewrite (proj1 (proj2 (digit_char_spec k1 Hk1))) in *.
    rewrite (proj1 (proj2 (digit_char_spec k2 Hk2))) in *.
    digit_cases_of k1 Hk1; digit_cases_of k2 Hk2; try lia;
      vm_compute; reflexivity.
Qed.

Lemma match_item_d_inv (s rest : list ascii) (t t' : fields) :
  match_item Dir_d s t = Some (t', rest) -> nonspace_head s ->
  exists dd d,
    s = dd ++ rest /\ day_text d dd
    /\ t' = mk_fields (f_year t) (f_month t) d.
Proof.
  assert (forall k, 0 <= k <= 9 ->
            Char.is_digit (Char.digit_char k) = true
            /\ Char.digit_value (Char.digit_char k) = k) as Hdigit.
  { intros k Hk. destruct (digit_char_spec k Hk) as (? & ? & _). done. }
  assert (forall c1 k rest', 1 <= k <= 9 -> c1 = Char.digit_char k ->
            exists dd d, c1 :: rest' = dd ++ rest'
              /\ day_text d dd
              /\ mk_fields (f_year t) (f_month t) (Char.digit_value c1)
                 = mk_fields (f_year t) (f_month t) d) as Hone.
  { intros c1 k rest' Hk ->. destruct (Hdigit k) as [D V]; [lia|].
    exists [Char.digit_char k], k. split; [done|]. split; [|by rewrite V].
    split; [by repeat constructor|]. split; [by left|].
    unfold number. cbn [foldl]. rewrite V. lia. }
  destruct s as [|c1 [|c2 s]]; [discriminate| |]; cbn [match_item].
  - destruct (Char.in_range "1" "9" c1) eqn:E; [|discriminate].
    intros [= <- <-] _. apply in_range_1_9 in E as (k & Hk & Hc). eauto.
  - intros Hm Hhead. revert Hm.
    destruct (Ascii.eqb c1 "3" && Char.in_range "0" "1" c2) eqn:E1.
    { apply andb_prop in E1 as [->%Ascii.eqb_eq (k & Hk & ->)%in_range_0_1].
      intros [= <- <-]. destruct (Hdigit k) as [D V]; [lia|].
      exists ["3"%char; Char.digit_char k], (30 + k).
      split; [done|]. split; [|by rewrite V].
      split; [by repeat constructor|]. split; [by right|].
      unfold number. cbn [foldl]. rewrite V.
      change (Char.digit_value "3") with 3. lia. }
    destruct (Char.in_range "1" "2" c1 && Char.is_digit c2) eqn:E2.
    { apply andb_prop in E2 as [(k1 & Hk1 & ->)%in_range_1_2
                                  (k2 & Hk2 & ->)%digit_cases].
      intros [= <- <-]. destruct (Hdigit k1) as [D1 V1]; [lia|].
      destruct (Hdigit k2) as [D2 V2]; [lia|].
      exists [Char.digit_char k1; Char.digit_char k2], (10 * k1 + k2).
      split; [done|]. split; [|by rewrite V1, V2].
      split; [by repeat constructor|]. split; [by right|].
      unfold number. cbn [foldl]. rewrite V1, V2. lia. }
    destruct (Ascii.eqb c1 "0" && Char.in_range "1" "9" c2) eqn:E3.
    { apply andb_prop in E3 as [->%Ascii.eqb_eq (k & Hk & ->)%in_range_1_9].
      intros [= <- <-]. destruct (Hdigit k) as [D V]; [lia|].
      exists ["0"%char; Char.digit_char k], k.
      split; [done|]. split; [|by rewrite V].
      split; [by repeat constructor|]. split; [by right|].
      unfold number. cbn [foldl]. rewrite V.
      change (Char.digit_value "0") with 0. lia. }
    destruct (Char.in_range "1" "9" c1) eqn:E4.
    { intros [= <- <-]. apply in_range_1_9 in E4 as (k & Hk & Hc). eauto. }
    destruct (Ascii.eqb c1 " " && Char.in_range "1" "9" c2) eqn:E5;
      [|discriminate].
    apply andb_prop in E5 as [->%Ascii.eqb_eq _]. by simpl in Hhead.
Qed.

(** ** [strptime] on the three formats *)

Lemma whitespace_head (ws rest : list ascii) :
  whitespace ws -> nondigit_head (ws ++ rest).
Proof.
  intros [Hne Hws]. destruct ws as [|c ws]; [done|].
  inversion_clear Hws as [|? ? Hc _]. simpl. by apply space_not_digit.
Qed.

Lemma digits_head (t rest : list ascii) :
  digits t -> t <> [] -> nonspace_head (t ++ rest).
Proof.
  intros Hdig Hne. destruct t as [|c t]; [done|].
  inversion_clear Hdig as [|? ? Hc _]. simpl. by apply digit_not_space.
Qed.

Lemma year_text_nonempty (y : Z) (yyyy : list ascii) :
  year_text y yyyy -> yyyy <> [].
Proof. intros (_ & Hlen & _) ->. discriminate. Qed.

Lemma day_text_nonempty (d : Z) (dd : list ascii) :
  day_text d dd -> dd <> [].
Proof. intros (_ & [Hlen|Hlen] & _) ->; discriminate. Qed.

Lemma day_head (d : Z) (dd rest : list ascii) :
  day_text d dd -> nonspace_head (dd ++ rest).
Proof.
  intros Hdd. apply digits_head; [apply Hdd|by eapply day_text_nonempty].
Qed.

Lemma year_head (y : Z) (yyyy rest : list ascii) :
  year_text y yyyy -> nonspace_head (yyyy ++ rest).
Proof.
  intros Hy. apply digits_head; [apply Hy|by eapply year_text_nonempty].
Qed.

Lemma match_items_full (l : list ascii) (y m d : Z) :
  matches_pattern FullDate l y m d <->
  match_items full_items l default_fields = Some (mk_fields y m d, []).
Proof.
  unfold full_items. split.
  - intros (mon & ws1 & dd & ws2 & yyyy & -> & Hmon & Hws1 & Hdd & Hws2 & Hy).
    cbn [match_items]. rewrite <- (app_nil_r yyyy).
    rewrite (match_item_b m) by done.
    rewrite match_item_spaces by (done || by eapply day_head).
    rewrite (match_item_d d) by (done || by apply whitespace_head).
    rewrite match_item_spaces by (done || by eapply year_head).
    by rewrite (match_item_Y y).
  - cbn [match_items].
    destruct (match_item Dir_b l _) as [[t1 l1]|] eqn:H1; [|discriminate].
    destruct (match_item Spaces l1 _) as [[t2 l2]|] eqn:H2; [|discriminate].
    destruct (match_item Dir_d l2 _) as [[t3 l3]|] eqn:H3; [|discriminate].
    destruct (match_item Spaces l3 _) as [[t4 l4]|] eqn:H4; [|discriminate].
    destruct (match_item Dir_Y l4 _) as [[t5 l5]|] eqn:H5; [|discriminate].
    intros [= -> ->].
    apply match_item_b_inv in H1 as (mon & m' & -> & Hmon & ->).
    apply match_item_spaces_inv in H2 as (ws1 & -> & Hws1 & Hhead & ->).
    apply match_item_d_inv in H3 as (dd & d' & -> & Hdd & ->); [|done].
    apply match_item_spaces_inv in H4 as (ws2 & -> & Hws2 & _ & ->).
    apply match_item_Y_inv in H5 as (yyyy & y' & -> & Hy & H5).
    simpl in H5. injection H5 as -> -> ->. rewrite app_nil_r.
    by exists mon, ws1, dd, ws2, yyyy.
Qed.

Lemma match_items_month_year (l : list ascii) (y m d : Z) :
  matches_pattern MonthYear l y m d <->
  match_items month_year_items l default_fields = Some (mk_fields y m d, []).
Proof.
  unfold month_year_items. split.
  - intros (mon & ws & yyyy & -> & Hmon & Hws & Hy & ->).
    cbn [match_items]. rewrite <- (app_nil_r yyyy).
    rewrite (match_item_b m) by done.
    rewrite match_item_spaces by (done || by eapply year_head).
    by rewrite (match_item_Y y).
  - cbn [match_items].
    destruct (match_item Dir_b l _) as [[t1 l1]|] eqn:H1; [|discriminate].
    destruct (match_item Spaces l1 _) as [[t2 l2]|] eqn:H2; [|discriminate].
    destruct (match_item Dir_Y l2 _) as [[t3 l3]|] eqn:H3; [|discriminate].
    intros [= -> ->].
    apply match_item_b_inv in H1 as (mon & m' & -> & Hmon & ->).
    apply match_item_spaces_inv in H2 as (ws & -> & Hws & _ & ->).
    apply match_item_Y_inv in H3 as (yyyy & y' & -> & Hy & H3).
    simpl in H3. injection H3 as -> -> ->. rewrite app_nil_r.
    by exists mon, ws, yyyy.
Qed.

Lemma match_items_year (l : list ascii) (y m d : Z) :
  matches_pattern YearOnly l y m d <->
  match_items year_items l default_fields = Some (mk_fields y m d, []).
Proof.
  unfold year_items. split.
  - intros (Hy & -> & ->). cbn [match_items].
    rewrite <- (app_nil_r l). by rewrite (match_item_Y y).
  - cbn [match_items].
    destruct (match_item Dir_Y l _) as [[t1 l1]|] eqn:H1; [|discriminate].
    intros [= -> ->].
    apply match_item_Y_inv in H1 as (yyyy & y' & -> & Hy & H1).
    simpl in H1. injection H1 as -> -> ->. rewrite app_nil_r. by split.
Qed.

(** [strptime] succeeds exactly on the texts of the shape of its format
    that write a date of the calendar. *)
Lemma strptime_spec (format : string) (items : list fmt_item) (p : pattern)
    (datestring : string) (dt : datetime) :
  compile_format (list_ascii_of_string format) = Some items ->
  (forall l y m d,
     matches_pattern p l y m d <->
     match_items items l default_fields = Some (mk_fields y m d, [])) ->
  strptime datestring format = Some dt <->
  exists y m d,
    matches_pattern p (list_ascii_of_string datestring) y m d
    /\ calendar_date y m d /\ dt = mk_datetime y m d.
Proof.
  intros Hfmt Hitems. unfold strptime. rewrite Hfmt. split.
  - destruct (match_items items _ _) as [[[y m d] [|c rest]]|] eqn:Hm;
      try discriminate.
    simpl. intros [Hcal ->]%datetime_new_Some.
    exists y, m, d. by rewrite Hitems.
  - intros (y & m & d & Hm & Hcal & ->). apply Hitems in Hm. rewrite Hm. simpl.
    by apply datetime_new_Some.
Qed.

Lemma strptime_full (datestring : string) (dt : datetime) :
  strptime datestring "%b %d %Y" = Some dt <->
  exists y m d,
    matches_pattern FullDate (list_ascii_of_string datestring) y m d
    /\ calendar_date y m d /\ dt = mk_datetime y m d.
Proof. apply (strptime_spec _ _ _ _ _ compile_full), match_items_full. Qed.

Lemma strptime_month_year (datestring : string) (dt : datetime) :
  strptime datestring "%b %Y" = Some dt <->
  exists y m d,
    matches_pattern MonthYear (list_ascii_of_string datestring) y m d
    /\ calendar_date y m d /\ dt = mk_datetime y m d.
Proof.
  apply (strptime_spec _ _ _ _ _ compile_month_year), match_items_month_year.
Qed.

Lemma strptime_year (datestring : string) (dt : datetime) :
  strptime datestring "%Y" = Some dt <->
  exists y m d,
    matches_pattern YearOnly (list_ascii_of_string datestring) y m d
    /\ calendar_date y m d /\ dt = mk_datetime y m d.
Proof. apply (strptime_spec _ _ _ _ _ compile_year), match_items_year. Qed.

(** ** The three shapes exclude one another *)

Lemma a_month_letter (n : nat) (name : string) :
  a_month !! n = Some name ->
  exists a rest,
    list_ascii_of_string name = a :: rest /\ Char.is_digit a = false.
Proof.
  unfold a_month.
  do 12 (destruct n as [|n]; [intros [= <-]; by eexists _, _|]). discriminate.
Qed.

Lemma month_text_head (m : Z) (mon rest : list ascii) :
  month_text m mon -> ~ digits (mon ++ rest).
Proof.
  intros (name & _ & Hname & Hlow) Hdig.
  apply a_month_letter in Hname as (a & tl & Hname & Ha).
  rewrite Hname in Hlow. destruct mon as [|c mon]; [discriminate|].
  injection Hlow as Hc _. inversion_clear Hdig as [|? ? Hd _].
  apply digit_cases in Hd as (k & Hk & ->).
  rewrite (proj2 (proj2 (proj2 (digit_char_spec k Hk)))) in Hc. subst a.
  by rewrite (proj1 (digit_char_spec k Hk)) in Ha.
Qed.

Lemma full_not_month_year (l : list ascii) (y m d y' m' d' : Z) :
  matches_pattern FullDate l y m d -> matches_pattern MonthYear l y' m' d' ->
  False.
Proof.
  intros (mon & ws1 & dd & ws2 & yyyy & -> & Hmon & Hws1 & Hdd & Hws2 & Hy)
         (mon' & ws' & yyyy' & Heq & Hmon' & Hws' & Hy' & _).
  apply app_inj_1 in Heq as [_ Heq].
  2:{ apply month_text_length in Hmon, Hmon'. congruence. }
  apply (f_equal skip_spaces) in Heq.
  rewrite skip_spaces_app in Heq by (apply Hws1 || by eapply day_head).
  rewrite <- (app_nil_r yyyy') in Heq.
  rewrite skip_spaces_app in Heq by (apply Hws' || by eapply year_head).
  rewrite app_nil_r in Heq. destruct Hy' as (Hdig & _). rewrite <- Heq in Hdig.
  apply Forall_app in Hdig as [_ [Hdig _]%Forall_app].
  destruct Hws2 as [Hne Hws2]. destruct ws2 as [|c ws2]; [done|].
  inversion_clear Hws2 as [|? ? Hc _]. inversion_clear Hdig as [|? ? Hd _].
  apply digit_not_space in Hd. congruence.
Qed.

Lemma year_not_month (l : list ascii) (p : pattern) (y m d y' m' d' : Z) :
  matches_pattern YearOnly l y m d -> matches_pattern p l y' m' d' ->
  p = YearOnly.
Proof.
  intros ((Hdig & _) & _) Hp. destruct p; [exfalso..|done].
  - destruct Hp as (mon & ws1 & dd & ws2 & yyyy & -> & Hmon & _).
    by eapply month_text_head.
  - destruct Hp as (mon & ws & yyyy & -> & Hmon & _).
    by eapply month_text_head.
Qed.

(** ** [DateToISOString] *)

Lemma DateToISOString_Raise (datestring : string) (e : Exn) :
  DateToISOString datestring = Raise e -> e = InvalidDateFormat.
Proof.
  unfold DateToISOString.
  destruct (strptime datestring "%b %d %Y"); [discriminate|].
  destruct (strptime datestring "%b %Y"); [discriminate|].
  destruct (strptime datestring "%Y"); [discriminate|].
  by intros [= <-].
Qed.

Lemma DateToISOString_Ok (datestring r : string) :
  DateToISOString datestring = Ok r <->
  exists p y m d,
    matches_pattern p (list_ascii_of_string datestring) y m d
    /\ calendar_date y m d /\ r = strftime_Y_m_d (mk_datetime y m d).
Proof.
  unfold DateToISOString. split.
  - destruct (strptime datestring "%b %d %Y") as [dt|] eqn:H1.
    { apply strptime_full in H1 as (y & m & d & Hm & Hcal & ->).
      intros [= <-]. by exists FullDate, y, m, d. }
    destruct (strptime datestring "%b %Y") as [dt|] eqn:H2.
    { apply strptime_month_year in H2 as (y & m & d & Hm & Hcal & ->).
      intros [= <-]. by exists MonthYear, y, m, d. }
    destruct (strptime datestring "%Y") as [dt|] eqn:H3; [|discriminate].
    apply strptime_year in H3 as (y & m & d & Hm & Hcal & ->).
    intros [= <-]. by exists YearOnly, y, m, d.
  - intros (p & y & m & d & Hm & Hcal & ->).
    destruct (strptime datestring "%b %d %Y") as [dt|] eqn:H1.
    { apply strptime_full in H1 as (y1 & m1 & d1 & Hm1 & _ & ->).
      destruct p.
      - apply match_items_full in Hm, Hm1. congruence.
      - destruct (full_not_month_year _ _ _ _ _ _ _ Hm1 Hm).
      - by pose proof (year_not_month _ _ _ _ _ _ _ _ Hm Hm1). }
    destruct (strptime datestring "%b %Y") as [dt|] eqn:H2.
    { apply strptime_month_year in H2 as (y2 & m2 & d2 & Hm2 & _ & ->).
      destruct p.
      - destruct (full_not_month_year _ _ _ _ _ _ _ Hm Hm2).
      - apply match_items_month_year in Hm, Hm2. congruence.
      - by pose proof (year_not_month _ _ _ _ _ _ _ _ Hm Hm2). }
    destruct (strptime datestring "%Y") as [dt|] eqn:H3.
    { apply strptime_year in H3 as (y3 & m3 & d3 & Hm3 & _ & ->).
      pose proof (year_not_month _ _ _ _ _ _ _ _ Hm3 Hm) as ->.
      apply match_items_year in Hm, Hm3. congruence. }
    exfalso. destruct p.
    + assert (strptime datestring "%b %d %Y" = Some (mk_datetime y m d)) as H
        by (apply strptime_full; by exists y, m, d). congruence.
    + assert (strptime datestring "%b %Y" = Some (mk_datetime y m d)) as H
        by (apply strptime_month_year; by exists y, m, d). congruence.
    + assert (strptime datestring "%Y" = Some (mk_datetime y m d)) as H
        by (apply strptime_year; by exists y, m, d). congruence.
Qed.

(** C3 (amended). A string that has one of the three shapes, month
    abbreviation day year, month abbreviation year, or year, and that
    writes a date of the calendar in the year 1000 or later, is turned
    into YYYY-MM-DD: four digits that write the year, two that write the
    month and two that write the day of the string, where a string without
    a day stands for the 1st and one without a month for January. *)
Theorem DateToISOString_iso (datestring : string) (p : pattern) (y m d : Z)
    (Hshape : matches_pattern p (list_ascii_of_string datestring) y m d)
    (Hdate : calendar_date y m d)
    (Hyear : 1000 <= y) :
  (exists r, DateToISOString datestring = Ok r /\ iso_text r y m d
             /\ String.length r = 10%nat)
  /\ (p = MonthYear -> d = 1)
  /\ (p = YearOnly -> m = 1 /\ d = 1).
Proof.
  split.
  - exists (strftime_Y_m_d (mk_datetime y m d)). split.
    + apply DateToISOString_Ok. by exists p, y, m, d.
    + split; [by apply strftime_iso_text|by apply strftime_length].
  - split; intros ->.
    + by destruct Hshape as (? & ? & ? & _ & _ & _ & _ & ->).
    + by destruct Hshape as (_ & -> & ->).
Qed.

Lemma DateToISOString_iso_jul_04_2004 :
  (exists r, DateToISOString "Jul 04 2004" = Ok r /\ iso_text r 2004 7 4
             /\ String.length r = 10%nat)
  /\ (FullDate = MonthYear -> 4 = 1)
  /\ (FullDate = YearOnly -> 7 = 1 /\ 4 = 1).
Proof.
  apply (DateToISOString_iso "Jul 04 2004" FullDate 2004 7 4).
  - apply match_items_full. vm_compute. reflexivity.
  - unfold calendar_date. vm_compute. intuition discriminate.
  - lia.
Defined.

(** Feb 30 2004 has the shape of a full date and is no date: the call
    raises. 0999 has the shape of a year and is the first of January of
    the year 999: the call returns 999-01-01, nine characters, the year on
    three digits. *)
Lemma DateToISOString_feb_30_and_0999 :
  (matches_pattern FullDate (list_ascii_of_string "Feb 30 2004") 2004 2 30
   /\ DateToISOString "Feb 30 2004" = Raise InvalidDateFormat)
  /\ (matches_pattern YearOnly (list_ascii_of_string "0999") 999 1 1
      /\ calendar_date 999 1 1
      /\ DateToISOString "0999" = Ok "999-01-01"%string
      /\ String.length "999-01-01" = 9%nat).
Proof.
  split; split.
  - apply match_items_full. vm_compute. reflexivity.
  - vm_compute. reflexivity.
  - apply match_items_year. vm_compute. reflexivity.
  - split; [|split; vm_compute; reflexivity].
    unfold calendar_date. vm_compute. intuition discriminate.
Qed.

(** C4 (amended). DateToISOString raises its ValueError exactly when no
    shape among the three both covers the whole string and writes a date
    of the calendar: a string of no shape fails, such as 13/45/2020, and
    so does a string of the right shape that names a day or a year the
    calendar does not have. It raises nothing else. *)
Theorem DateToISOString_fails_iff :
  (forall datestring : string,
     DateToISOString datestring = Raise InvalidDateFormat <->
     ~ exists p y m d,
         matches_pattern p (list_ascii_of_string datestring) y m d
         /\ calendar_date y m d)
  /\ (forall datestring e, DateToISOString datestring = Raise e ->
        e = InvalidDateFormat)
  /\ DateToISOString "13/45/2020" = Raise InvalidDateFormat.
Proof.
  split; [|split; [apply DateToISOString_Raise|reflexivity]].
  intros datestring. split.
  - intros Hfail (p & y & m & d & Hm & Hcal).
    assert (DateToISOString datestring
            = Ok (strftime_Y_m_d (mk_datetime y m d))) as Hok
      by (apply DateToISOString_Ok; by exists p, y, m, d).
    congruence.
  - intros Hnone. destruct (DateToISOString datestring) as [r|e] eqn:Hd.
    + apply DateToISOString_Ok in Hd as (p & y & m & d & Hm & Hcal & _).
      destruct Hnone. by exists p, y, m, d.
    + by apply DateToISOString_Raise in Hd as ->.
Qed.

Lemma DateToISOString_fails_iff_slashes :
  ~ exists p y m d,
      matches_pattern p (list_ascii_of_string "13/45/2020") y m d
      /\ calendar_date y m d.
Proof.
  apply (proj1 (proj1 DateToISOString_fails_iff "13/45/2020"%string)).
  reflexivity.
Defined.

(** Jun 31 2015 has the shape of a full date, and DateToISOString
    raises. *)
Lemma DateToISOString_jun_31 :
  matches_pattern FullDate (list_ascii_of_string "Jun 31 2015") 2015 6 31
  /\ DateToISOString "Jun 31 2015" = Raise InvalidDateFormat.
Proof. split; [apply match_items_full|]; vm_compute; reflexivity. Qed.

Example DateToISOString_full_date :
  DateToISOString "Jul 04 2004" = Ok "2004-07-04"%string.
Proof. reflexivity. Qed.

Example DateToISOString_month_year :
  DateToISOString "Jul 2004" = Ok "2004-07-01"%string.
Proof. reflexivity. Qed.

Example DateToISOString_year_only :
  DateToISOString "2004" = Ok "2004-01-01"%string.
Proof. reflexivity. Qed.

Example DateToISOString_any_case_any_blank :
  DateToISOString "jUL   4 2004" = Ok "2004-07-04"%string.
Proof. reflexivity. Qed.

Example DateToISOString_leap_day :
  DateToISOString "Feb 29 2004" = Ok "2004-02-29"%string
  /\ DateToISOString "Feb 29 2005" = Raise InvalidDateFormat.
Proof. split; reflexivity. Qed.

Example DateToISOString_year_zero :
  DateToISOString "0000" = Raise InvalidDateFormat.
Proof. reflexivity. Qed.


(** ** The order of [sorted] *)

Lemma ascii_compare_refl (a : ascii) : Ascii.compare a a = Eq.
Proof. unfold Ascii.compare. apply N.compare_refl. Qed.

Lemma ascii_compare_lt_trans (a b c : ascii) :
  Ascii.compare a b = Lt -> Ascii.compare b c = Lt -> Ascii.compare a c = Lt.
Proof.
  unfold Ascii.compare. rewrite !N.compare_lt_iff. apply N.lt_trans.
Qed.

Lemma string_compare_refl (s : string) : String.compare s s = Eq.
Proof.
  induction s as [|a s IH]; simpl; [reflexivity|].
  now rewrite ascii_compare_refl.
Qed.

Lemma string_compare_lt_trans (s1 s2 s3 : string) :
  String.compare s1 s2 = Lt -> String.compare s2 s3 = Lt ->
  String.compare s1 s3 = Lt.
Proof.
  revert s2 s3. induction s1 as [|a s1 IH]; intros [|b s2] [|c s3]; simpl;
    try congruence.
  destruct (Ascii.compare a b) eqn:Hab; try discriminate;
    destruct (Ascii.compare b c) eqn:Hbc; try discriminate; intros H1 H2.
  - apply Ascii.compare_eq_iff in Hab, Hbc. subst.
    rewrite ascii_compare_refl. now apply (IH s2).
  - apply Ascii.compare_eq_iff in Hab. subst. now rewrite Hbc.
  - apply Ascii.compare_eq_iff in Hbc. subst. now rewrite Hab.
  - now rewrite (ascii_compare_lt_trans a b c).
Qed.

Lemma string_le_cases (a b : string) :
  string_le a b <-> a = b \/ string_lt a b.
Proof.
  unfold string_le, string_lt, String.leb, String.ltb. split.
  - destruct (String.compare a b) eqn:H; try discriminate; auto.
    apply String.compare_eq_iff in H. auto.
  - intros [->|H]; [now rewrite string_compare_refl|].
    destruct (String.compare a b); congruence.
Qed.

Lemma string_lt_compare (a b : string) :
  string_lt a b <-> String.compare a b = Lt.
Proof.
  unfold string_lt, String.ltb.
  destruct (String.compare a b); split; congruence.
Qed.

Lemma string_lt_irrefl (a : string) : ~ string_lt a a.
Proof. rewrite string_lt_compare, string_compare_refl. discriminate. Qed.

#[global] Instance string_lt_trans : Transitive string_lt.
Proof.
  intros a b c. rewrite !string_lt_compare. apply string_compare_lt_trans.
Qed.

#[global] Instance string_le_trans : Transitive string_le.
Proof.
  intros a b c. rewrite !string_le_cases.
  intros [->|H1] [->|H2]; auto. right. now transitivity b.
Qed.

#[global] Instance string_le_total : Total string_le.
Proof. intros a b. apply String.leb_total. Qed.

#[global] Instance string_le_antisym : AntiSymm (=) string_le.
Proof. intros a b. apply String.leb_antisym. Qed.

(** A duplicate-free list sorted by [string_le] is strictly ascending. *)
Lemma StronglySorted_le_lt (l : list string) :
  NoDup l -> StronglySorted string_le l -> StronglySorted string_lt l.
Proof.
  induction 1 as [|x l Hx Hl IH]; inversion_clear 1 as [|? ? Hs Hall];
    constructor; auto.
  rewrite Forall_forall in Hall |- *. intros y Hy.
  destruct (proj1 (string_le_cases x y) (Hall y Hy)) as [->|]; [done|auto].
Qed.

(** ** [dates_of] and [make_table] *)

Lemma elem_of_dates_of (dat : Dat) (date : string) :
  date ∈ dates_of dat <-> exists term, is_Some (dat !! (term, date)).
Proof.
  unfold dates_of, sorted. rewrite merge_sort_Permutation.
  rewrite elem_of_elements, elem_of_list_to_set.
  rewrite !list_elem_of_fmap. split.
  - intros (k & -> & [[[term d] v] [-> Hkv]]%list_elem_of_fmap).
    apply elem_of_map_to_list in Hkv. simpl. eauto.
  - intros (term & v & Hv). exists (term, date). split; [done|].
    apply list_elem_of_fmap. exists (term, date, v). split; [done|].
    now apply elem_of_map_to_list.
Qed.

Lemma dates_of_sorted (dat : Dat) :
  StronglySorted string_lt (dates_of dat) /\ NoDup (dates_of dat).
Proof.
  assert (NoDup (dates_of dat)) as Hnd.
  { unfold dates_of, sorted. rewrite merge_sort_Permutation.
    apply NoDup_elements. }
  split; [|done]. apply StronglySorted_le_lt; [done|].
  apply StronglySorted_merge_sort; apply _.
Qed.

Lemma row_date_table_row (queries : list string) (dat : Dat) (dates : list string) :
  map row_date (map (table_row queries dat) dates) = map Some dates.
Proof. induction dates; simpl; congruence. Qed.

(** ** The dictionary of one response *)

Lemma points_dict_Ok (term : string) (points : list Point) (acc acc' : Dat) :
  points_dict term points acc = Ok acc' ->
  acc' = list_to_map (reverse (omap (keyed_point term) points)) ∪ acc
  /\ Forall (fun point => keyed_point term point <> None) points.
Proof.
  revert acc. induction points as [|point points IH]; intros acc; simpl.
  - intros [= <-]. split; [|constructor].
    by rewrite (left_id_L ∅ (∪)).
  - change (list_omap _ _ ?f ?l) with (omap f l). unfold keyed_point at 1 3.
    destruct (DateToISOString (p_date point)) as [date|e] eqn:Hd; [|discriminate].
    intros [-> Hall]%IH. split.
    + rewrite reverse_cons, list_to_map_app, insert_union_singleton_l.
      simpl. rewrite insert_empty. by rewrite (assoc_L (∪)).
    + constructor; [|exact Hall]. unfold keyed_point. by rewrite Hd.
Qed.

Lemma lines_dict_Ok (ls : list Line) (acc acc' : Dat) :
  lines_dict ls acc = Ok acc' ->
  acc' = list_to_map (reverse (response_points (mk_response ls))) ∪ acc
  /\ Forall (fun line =>
       Forall (fun point => keyed_point (l_term line) point <> None)
         (l_points line)) ls.
Proof.
  unfold response_points. simpl.
  revert acc. induction ls as [|line ls IH]; intros acc; simpl.
  - intros [= <-]. split; [|constructor].
    by rewrite (left_id_L ∅ (∪)).
  - destruct (points_dict (l_term line) (l_points line) acc) as [acc1|e] eqn:Hp;
      [|discriminate].
    apply points_dict_Ok in Hp as [-> Hp].
    intros [-> Hall]%IH. split; [|constructor; done].
    rewrite reverse_app, list_to_map_app. by rewrite (assoc_L (∪)).
Qed.

Lemma res_dict_Ok (res : Response) (d : Dat) :
  res_dict res = Ok d ->
  d = list_to_map (reverse (response_points res))
  /\ forall line point, line ∈ lines res -> point ∈ l_points line ->
       exists date, DateToISOString (p_date point) = Ok date.
Proof.
  unfold res_dict. destruct res as [ls]. simpl.
  intros [-> Hall]%lines_dict_Ok. split.
  - by rewrite (right_id_L ∅ (∪)).
  - intros line point Hl Hp. rewrite Forall_forall in Hall.
    specialize (Hall line Hl). rewrite Forall_forall in Hall.
    specialize (Hall point Hp). unfold keyed_point in Hall.
    destruct (DateToISOString (p_date point)); [eauto|done].
Qed.

(** ** The loop over the batches, when no exception is raised *)

Lemma received_responses_app (tr1 tr2 : list Event) :
  received_responses (tr1 ++ tr2) = received_responses tr1 ++ received_responses tr2.
Proof. apply omap_app. Qed.

Lemma received_responses_batch_events (exs : list (Request * Response)) :
  received_responses (batch_events exs) = map snd exs.
Proof. induction exs as [|[rq rs] exs IH]; simpl; [done|]. by rewrite <- IH. Qed.

Lemma executed_requests_batch_events (exs : list (Request * Response)) :
  executed_requests (batch_events exs) = map fst exs.
Proof. induction exs as [|[rq rs] exs IH]; simpl; [done|]. by rewrite <- IH. Qed.

Lemma batch_loop_Ok (env : Environment) (queries : list string)
    (start_date end_date geo geo_level frequency : string)
    (batch_intervals : list nat) (dat dat' : Dat) (tr0 tr1 : list Event) :
  batch_loop env queries start_date end_date geo geo_level frequency
    batch_intervals dat tr0 = (Ok dat', tr1) ->
  exists exs : list (Request * Response),
    tr1 = tr0 ++ batch_events exs
    /\ Forall2 (fun batch_start ex =>
         batch_request queries start_date end_date geo geo_level frequency
           batch_start = Ok ex.1) batch_intervals exs
    /\ Forall (fun ex => exists d, res_dict ex.2 = Ok d) exs
    /\ dat' = list_to_map (reverse (flat_map response_points (map snd exs))) ∪ dat.
Proof.
  revert dat tr0. induction batch_intervals as [|batch_start rest IH];
    intros dat tr0; simpl.
  - intros [= <- <-]. exists []. simpl. rewrite app_nil_r. split; [done|].
    split; [constructor|]. split; [constructor|].
    by rewrite (left_id_L ∅ (∪)).
  - unfold bind, lift, execute, sleep. fold (batch_request queries start_date
      end_date geo geo_level frequency batch_start).
    destruct (batch_request _ _ _ _ _ _ _) as [req|e] eqn:Hreq; [|discriminate].
    destruct (remote_execute env tr0 req) as [res|e] eqn:Hres; [|discriminate].
    destruct (res_dict res) as [d|e] eqn:Hd; [|discriminate].
    intros (exs & -> & Hall & Hdict & ->)%IH.
    pose proof Hd as [-> _]%res_dict_Ok.
    exists ((req, res) :: exs). simpl. split.
    { by rewrite <- !app_assoc. }
    split; [by constructor|]. split; [constructor; eauto|].
    rewrite reverse_app, list_to_map_app. by rewrite (assoc_L (∪)).
Qed.

(** ** [GetQueryVolumes], when it returns *)

Lemma truthy_Some (v : option string) :
  truthy v = true -> exists key, v = Some key /\ key <> EmptyString.
Proof. destruct v as [[|c k]|]; simpl; try discriminate. eauto. Qed.

Lemma merged_build_batch_events (ev : Event) (exs : list (Request * Response)) :
  (forall req out, ev <> EvExecute req out) ->
  merged (ev :: batch_events exs)
  = list_to_map (reverse (flat_map response_points (map snd exs))).
Proof.
  intros Hev. unfold merged, all_points.
  change (ev :: batch_events exs) with ([ev] ++ batch_events exs).
  rewrite received_responses_app, received_responses_batch_events.
  destruct ev; simpl; try done. by destruct (Hev req outcome).
Qed.

Lemma GetQueryVolumes_Ok (env : Environment) (queries : list string)
    (start_date end_date geo geo_level frequency : string)
    (tbl : list (list Cell)) (tr : list Event) :
  run (GetQueryVolumes env queries start_date end_date geo geo_level frequency)
  = (Ok tbl, tr) ->
  exists (key : string) (exs : list (Request * Response)),
    API_KEY env = Some key /\ key <> EmptyString
    /\ tr = EvBuild "trends" API_VERSION key DISCOVERY_URL (Ok tt)
            :: batch_events exs
    /\ Forall2 (fun batch_start ex =>
         batch_request queries start_date end_date geo geo_level frequency
           batch_start = Ok ex.1)
         (range 0 (length queries) MAX_QUERIES) exs
    /\ Forall (fun ex => exists d, res_dict ex.2 = Ok d) exs
    /\ tbl = make_table queries (merged tr).
Proof.
  unfold run, GetQueryVolumes.
  destruct (truthy (API_KEY env)) eqn:Hkey; simpl; [|discriminate].
  apply truthy_Some in Hkey as (key & Hkey & Hne). rewrite Hkey. simpl.
  unfold bind at 1. unfold build. simpl.
  destruct (remote_build env _ _ _ _) as [[]|e] eqn:Hb; [|discriminate].
  unfold bind.
  destruct (batch_loop _ _ _ _ _ _ _ _ _ _) as [[dat|e] tr1] eqn:Hloop;
    [|discriminate].
  unfold ret. intros [= <- <-].
  apply batch_loop_Ok in Hloop as (exs & -> & Hall & Hdict & ->).
  exists key, exs. repeat split; try done.
  simpl. rewrite merged_build_batch_events by done.
  by rewrite (right_id_L ∅ (∪)).
Qed.

(** C1 (amended). Whenever GetQueryVolumes returns a table, its first row
    is "date" followed by the queries in their order, duplicates kept, and
    every later row is a date followed, for each term of the queries in
    order, by the value the merged mapping of the responses has for that
    term and date, or 0 when it has none. *)
Theorem GetQueryVolumes_table (env : Environment) (queries : list string)
    (start_date end_date geo geo_level frequency : string)
    (tbl : list (list Cell)) (tr : list Event)
    (Hrun : run (GetQueryVolumes env queries start_date end_date geo
                   geo_level frequency) = (Ok tbl, tr)) :
  tbl !! 0%nat = Some (CStr "date" :: map CStr queries)
  /\ forall (i : nat) (row : list Cell),
       tbl !! S i = Some row ->
       exists date : string,
         row = CStr date
               :: map (fun term => CNum (default 0 (merged tr !! (term, date))))
                    queries.
Proof.
  apply GetQueryVolumes_Ok in Hrun as (key & exs & _ & _ & _ & _ & _ & ->).
  split; [done|]. intros i row. unfold make_table. simpl.
  rewrite list_lookup_fmap. destruct (dates_of (merged tr) !! i) as [date|];
    simpl; [|done].
  intros [= <-]. by exists date.
Qed.

(** With a response that holds the one point (flu, Jan 01 2015, 5) the
    table is the header and the row of 2015-01-01 with 5 and 0. *)
Lemma GetQueryVolumes_table_flu_cough :
  let tbl := [[CStr "date"; CStr "flu"; CStr "cough"];
              [CStr "2015-01-01"; CNum 5; CNum 0]] in
  let tr := [the_build; EvExecute flu_cough_request (Ok flu_response); EvSleep 1] in
  run (GetQueryVolumes (constant_service flu_response) flu_cough
         "2011-01-01" "2015-01-01" "US" "country" "week") = (Ok tbl, tr)
  /\ tbl !! 0%nat = Some (CStr "date" :: map CStr flu_cough)
  /\ forall (i : nat) (row : list Cell),
       tbl !! S i = Some row ->
       exists date : string,
         row = CStr date
               :: map (fun term => CNum (default 0 (merged tr !! (term, date))))
                    flu_cough.
Proof.
  intros tbl tr.
  assert (run (GetQueryVolumes (constant_service flu_response) flu_cough
                 "2011-01-01" "2015-01-01" "US" "country" "week") = (Ok tbl, tr))
    as Hrun by (vm_compute; reflexivity).
  split; [exact Hrun|].
  exact (GetQueryVolumes_table _ _ _ _ _ _ _ _ _ Hrun).
Defined.

(** The same point dated 2015-01-01 in the response itself is refused by
    DateToISOString, and the call raises instead of returning the table. *)
Lemma GetQueryVolumes_iso_date_in_response :
  run (GetQueryVolumes (constant_service flu_response_iso) flu_cough
         "2011-01-01" "2015-01-01" "US" "country" "week")
  = (Raise InvalidDateFormat,
     [the_build; EvExecute flu_cough_request (Ok flu_response_iso); EvSleep 1]).
Proof. vm_compute. reflexivity. Qed.

(** C2. Whenever GetQueryVolumes returns a table, the rows after the header
    start with dates that are strictly ascending in the order of strings,
    hence without repetition, and that are exactly the dates of the merged
    mapping of the responses. *)
Theorem GetQueryVolumes_rows_sorted (env : Environment) (queries : list string)
    (start_date end_date geo geo_level frequency : string)
    (tbl : list (list Cell)) (tr : list Event)
    (Hrun : run (GetQueryVolumes env queries start_date end_date geo
                   geo_level frequency) = (Ok tbl, tr)) :
  exists dates : list string,
    map row_date (tail tbl) = map Some dates
    /\ StronglySorted string_lt dates
    /\ NoDup dates
    /\ forall date : string,
         date ∈ dates <-> exists term, is_Some (merged tr !! (term, date)).
Proof.
  apply GetQueryVolumes_Ok in Hrun as (key & exs & _ & _ & _ & _ & _ & ->).
  exists (dates_of (merged tr)). simpl.
  split; [apply row_date_table_row|].
  split; [apply dates_of_sorted|].
  split; [apply dates_of_sorted|].
  apply elem_of_dates_of.
Qed.

Lemma GetQueryVolumes_rows_sorted_unordered :
  let tbl := [[CStr "date"; CStr "flu"; CStr "cough"];
              [CStr "2014-01-01"; CNum 0; CNum 9];
              [CStr "2015-01-04"; CNum 1; CNum 2];
              [CStr "2015-03-01"; CNum 3; CNum 0]] in
  let tr := [the_build; EvExecute flu_cough_request (Ok unordered_response);
             EvSleep 1] in
  run (GetQueryVolumes (constant_service unordered_response) flu_cough
         "2011-01-01" "2015-01-01" "US" "country" "week") = (Ok tbl, tr)
  /\ exists dates : list string,
       map row_date (tail tbl) = map Some dates
       /\ StronglySorted string_lt dates
       /\ NoDup dates
       /\ forall date : string,
            date ∈ dates <-> exists term, is_Some (merged tr !! (term, date)).
Proof.
  intros tbl tr.
  assert (run (GetQueryVolumes (constant_service unordered_response) flu_cough
                 "2011-01-01" "2015-01-01" "US" "country" "week") = (Ok tbl, tr))
    as Hrun by (vm_compute; reflexivity).
  split; [exact Hrun|].
  exact (GetQueryVolumes_rows_sorted _ _ _ _ _ _ _ _ _ Hrun).
Defined.

(** ** The guards of [GetQueryVolumes] *)

(** C5. With no API key configured ([None] or the empty string) every call
    raises the ValueError "API_KEY not set." and the trace of the call is
    empty: nothing was built, requested or slept. *)
Theorem GetQueryVolumes_no_credential (env : Environment) (queries : list string)
    (start_date end_date geo geo_level frequency : string)
    (Hkey : truthy (API_KEY env) = false) :
  run (GetQueryVolumes env queries start_date end_date geo geo_level frequency)
  = (Raise ConfigurationError, []).
Proof. unfold run, GetQueryVolumes. by rewrite Hkey. Qed.

Lemma GetQueryVolumes_no_credential_published :
  truthy (API_KEY unconfigured) = false
  /\ run (GetQueryVolumes unconfigured flu_cough
            "2011-01-01" "2015-01-01" "US" "province" "week")
     = (Raise ConfigurationError, []).
Proof.
  split; [reflexivity|].
  apply (GetQueryVolumes_no_credential unconfigured); reflexivity.
Defined.

Lemma range_nonempty (n step : nat) :
  (0 < n)%nat -> range 0 n step = 0%nat :: range_from (n - 1) step n step.
Proof.
  unfold range. destruct n as [|n]; [lia|]. intros _. simpl.
  by rewrite Nat.sub_0_r.
Qed.

Lemma make_request_bad_geo_level (query_batch : list string)
    (start_date end_date geo geo_level frequency : string) :
  geo_level <> "country"%string -> geo_level <> "region"%string ->
  geo_level <> "dma"%string ->
  make_request query_batch start_date end_date geo geo_level frequency
  = Raise InvalidArgument.
Proof.
  intros Hc Hr Hd. unfold make_request.
  apply String.eqb_neq in Hc, Hr, Hd. by rewrite Hc, Hr, Hd.
Qed.

(** C6 (amended). With an API key configured, a service that can be built
    and at least one query, a geo_level other than country, region and dma
    makes the call raise the ValueError about geo_type; the service has
    been built by then, and no request is executed and no pause taken. *)
Theorem GetQueryVolumes_bad_geo_level (env : Environment) (queries : list string)
    (start_date end_date geo geo_level frequency key : string)
    (Hkey : API_KEY env = Some key) (Hne : key <> EmptyString)
    (Hbuild : remote_build env "trends" API_VERSION key DISCOVERY_URL = Ok tt)
    (Hqueries : queries <> [])
    (Hcountry : geo_level <> "country"%string)
    (Hregion : geo_level <> "region"%string)
    (Hdma : geo_level <> "dma"%string) :
  run (GetQueryVolumes env queries start_date end_date geo geo_level frequency)
  = (Raise InvalidArgument,
     [EvBuild "trends" API_VERSION key DISCOVERY_URL (Ok tt)]).
Proof.
  unfold run, GetQueryVolumes. rewrite Hkey.
  destruct key as [|c key]; [done|]. simpl.
  unfold bind at 1. unfold build. simpl. rewrite Hbuild.
  rewrite range_nonempty by (destruct queries; [done|simpl; lia]).
  unfold bind. simpl. unfold bind, lift.
  by rewrite make_request_bad_geo_level.
Qed.

Lemma GetQueryVolumes_bad_geo_level_province :
  run (GetQueryVolumes (constant_service flu_response) flu_cough
         "2011-01-01" "2015-01-01" "US" "province" "week")
  = (Raise InvalidArgument, [the_build]).
Proof.
  apply (GetQueryVolumes_bad_geo_level (constant_service flu_response));
    first [reflexivity | discriminate].
Defined.

(** With no queries the same geo_level raises nothing: the loop that
    looks at it has no batch to run. *)
Lemma GetQueryVolumes_province_no_queries :
  run (GetQueryVolumes (constant_service flu_response) []
         "2011-01-01" "2015-01-01" "US" "province" "week")
  = (Ok [[CStr "date"]], [the_build]).
Proof. vm_compute. reflexivity. Qed.

(** C10. With an API key configured and a service that can be built, a call
    with no queries returns the table whose only row is "date", whatever
    geo_level is; the trace holds the build of the service and no
    request. *)
Theorem GetQueryVolumes_no_queries (env : Environment)
    (start_date end_date geo geo_level frequency key : string)
    (Hkey : API_KEY env = Some key) (Hne : key <> EmptyString)
    (Hbuild : remote_build env "trends" API_VERSION key DISCOVERY_URL = Ok tt) :
  let out := run (GetQueryVolumes env [] start_date end_date geo geo_level
                    frequency) in
  out = (Ok [[CStr "date"]],
         [EvBuild "trends" API_VERSION key DISCOVERY_URL (Ok tt)])
  /\ executed_requests (snd out) = [].
Proof.
  assert (run (GetQueryVolumes env [] start_date end_date geo geo_level frequency)
          = (Ok [[CStr "date"]],
             [EvBuild "trends" API_VERSION key DISCOVERY_URL (Ok tt)])) as Hrun.
  { unfold run, GetQueryVolumes. rewrite Hkey.
    destruct key as [|c key]; [done|]. simpl.
    unfold bind at 1. unfold build. simpl. by rewrite Hbuild. }
  simpl. by rewrite Hrun.
Qed.

Lemma GetQueryVolumes_no_queries_continent :
  let out := run (GetQueryVolumes (constant_service flu_response) []
                    "2011-01-01" "2015-01-01" "EU" "continent" "week") in
  out = (Ok [[CStr "date"]], [the_build]) /\ executed_requests (snd out) = [].
Proof.
  apply (GetQueryVolumes_no_queries (constant_service flu_response));
    first [reflexivity | discriminate].
Defined.

(** ** Pauses *)

Lemma pauses_batch_events (exs : list (Request * Response)) :
  pauses (batch_events exs) = replicate (length exs) 1.
Proof. induction exs as [|ex exs IH]; simpl; [done|]. by rewrite <- IH. Qed.

Lemma last_batch_events (exs : list (Request * Response)) :
  exs <> [] -> last (batch_events exs) = Some (EvSleep 1).
Proof.
  induction exs as [|ex exs IH]; [done|]. intros _.
  destruct exs as [|ex' exs]; [done|].
  change (batch_events (ex :: ex' :: exs))
    with ([EvExecute ex.1 (Ok ex.2); EvSleep 1] ++ batch_events (ex' :: exs)).
  rewrite last_app. by rewrite IH.
Qed.

(** C8 (amended). In the trace of a call that returns, the events after the
    build of the service come in pairs: a request that was answered and,
    right after it, a pause of 1 second. Every request is followed by
    its pause, the one of the last batch included, so there are as many
    pauses as requests and a call with at least one query ends on a
    pause. *)
Theorem GetQueryVolumes_pauses (env : Environment) (queries : list string)
    (start_date end_date geo geo_level frequency : string)
    (tbl : list (list Cell)) (tr : list Event)
    (Hrun : run (GetQueryVolumes env queries start_date end_date geo
                   geo_level frequency) = (Ok tbl, tr)) :
  (exists (key : string) (exs : list (Request * Response)),
     tr = EvBuild "trends" API_VERSION key DISCOVERY_URL (Ok tt)
          :: flat_map (fun ex => [EvExecute ex.1 (Ok ex.2); EvSleep 1]) exs)
  /\ pauses tr = replicate (length (executed_requests tr)) 1
  /\ (queries <> [] -> last tr = Some (EvSleep 1)).
Proof.
  apply GetQueryVolumes_Ok in Hrun as (key & exs & _ & _ & -> & Hall & _).
  split; [by exists key, exs|]. split.
  - change (?e :: batch_events exs) with ([e] ++ batch_events exs).
    unfold pauses, executed_requests. rewrite !omap_app.
    fold (pauses (batch_events exs)). fold (executed_requests (batch_events exs)).
    rewrite pauses_batch_events, executed_requests_batch_events. simpl.
    by rewrite length_map.
  - intros Hq. rewrite range_nonempty in Hall
      by (destruct queries; [done|simpl; lia]).
    change (?e :: batch_events exs) with ([e] ++ batch_events exs).
    rewrite last_app, last_batch_events; [done|].
    by inversion Hall.
Qed.

(** Two batches: the trace ends with the pause that follows the second
    request. *)
Lemma GetQueryVolumes_pause_after_last_batch :
  run (GetQueryVolumes (constant_service flu_response) queries31
         "2011-01-01" "2015-01-01" "US" "country" "week")
  = (Ok [CStr "date" :: replicate 31 (CStr "flu");
         CStr "2015-01-01" :: replicate 31 (CNum 5)],
     [the_build;
      EvExecute (request_of (replicate 30 "flu"%string)) (Ok flu_response);
      EvSleep 1;
      EvExecute (request_of ["flu"%string]) (Ok flu_response);
      EvSleep 1]).
Proof. vm_compute. reflexivity. Qed.

Lemma GetQueryVolumes_pauses_two_batches :
  let tr := [the_build;
             EvExecute (request_of (replicate 30 "flu"%string)) (Ok flu_response);
             EvSleep 1;
             EvExecute (request_of ["flu"%string]) (Ok flu_response);
             EvSleep 1] in
  (exists (key : string) (exs : list (Request * Response)),
     tr = EvBuild "trends" API_VERSION key DISCOVERY_URL (Ok tt)
          :: flat_map (fun ex => [EvExecute ex.1 (Ok ex.2); EvSleep 1]) exs)
  /\ pauses tr = replicate (length (executed_requests tr)) 1
  /\ (queries31 <> [] -> last tr = Some (EvSleep 1)).
Proof.
  intros tr.
  refine (GetQueryVolumes_pauses (constant_service flu_response) queries31
            "2011-01-01" "2015-01-01" "US" "country" "week"
            [CStr "date" :: replicate 31 (CStr "flu");
             CStr "2015-01-01" :: replicate 31 (CNum 5)] tr _).
  vm_compute. reflexivity.
Defined.

(** ** Malformed dates *)

Lemma points_dict_Raise (term : string) (points : list Point) (acc : Dat) (e : Exn) :
  points_dict term points acc = Raise e -> e = InvalidDateFormat.
Proof.
  revert acc. induction points as [|point points IH]; intros acc; simpl;
    [discriminate|].
  destruct (DateToISOString (p_date point)) as [date|e'] eqn:Hd; [apply IH|].
  intros [= <-]. by apply DateToISOString_Raise in Hd.
Qed.

Lemma res_dict_Raise (res : Response) (e : Exn) :
  res_dict res = Raise e -> e = InvalidDateFormat.
Proof.
  unfold res_dict. generalize (∅ : Dat).
  induction (lines res) as [|line ls IH]; intros acc; simpl; [discriminate|].
  destruct (points_dict _ _ _) as [acc'|e'] eqn:Hp; [apply IH|].
  intros [= <-]. by apply points_dict_Raise in Hp.
Qed.





(** ** Batches *)

Lemma ceil_div_step (n d : nat) :
  (0 < d)%nat -> (0 < n)%nat -> ceil_div n d = S (ceil_div (n - d) d).
Proof.
  intros Hd Hn. unfold ceil_div. destruct (Nat.le_gt_cases d n) as [Hle|Hlt].
  - replace (n + d - 1)%nat with ((n - d + d - 1) + 1 * d)%nat by lia.
    rewrite Nat.div_add by lia. lia.
  - replace (n - d)%nat with 0%nat by lia.
    rewrite (Nat.div_small (0 + d - 1)) by lia.
    replace (n + d - 1)%nat with ((n - 1) + 1 * d)%nat by lia.
    rewrite Nat.div_add by lia. rewrite Nat.div_small by lia. lia.
Qed.

Lemma ceil_div_0 (d : nat) : (0 < d)%nat -> ceil_div 0 d = 0%nat.
Proof. intros Hd. unfold ceil_div. apply Nat.div_small. lia. Qed.

Lemma ceil_div_bound (n d : nat) : (0 < d)%nat -> (n <= ceil_div n d * d)%nat.
Proof.
  intros Hd. unfold ceil_div.
  pose proof (Nat.div_mod_eq (n + d - 1) d) as Heq.
  pose proof (Nat.mod_upper_bound (n + d - 1) d) as Hlt. nia.
Qed.

Lemma ceil_div_lt (n d i : nat) :
  (0 < d)%nat -> (i < ceil_div n d)%nat -> (i * d < n)%nat.
Proof.
  intros Hd. unfold ceil_div.
  pose proof (Nat.div_mod_eq (n + d - 1) d) as Heq.
  pose proof (Nat.mod_upper_bound (n + d - 1) d) as Hlt. nia.
Qed.

(** [range] has enough fuel: it reaches [stop]. *)
Lemma range_from_spec (fuel start stop step : nat) :
  (0 < step)%nat -> (stop <= start + fuel)%nat ->
  range_from fuel start stop step
  = map (fun i => (start + i * step)%nat) (seq 0 (ceil_div (stop - start) step)).
Proof.
  intros Hstep. revert start.
  induction fuel as [|fuel IH]; intros start Hfuel; simpl.
  - replace (stop - start)%nat with 0%nat by lia. by rewrite ceil_div_0.
  - destruct (Nat.ltb_spec start stop) as [Hlt|Hge].
    + rewrite (ceil_div_step (stop - start)) by lia. simpl.
      f_equal; [lia|]. rewrite IH by lia.
      replace (stop - start - step)%nat with (stop - (start + step))%nat by lia.
      rewrite <- seq_shift, map_map. apply map_ext. intros i. lia.
    + replace (stop - start)%nat with 0%nat by lia. by rewrite ceil_div_0.
Qed.

Lemma range_spec (stop step : nat) :
  (0 < step)%nat ->
  range 0 stop step = map (fun i => (i * step)%nat) (seq 0 (ceil_div stop step)).
Proof.
  intros Hstep. unfold range. rewrite range_from_spec by lia.
  by rewrite Nat.sub_0_r.
Qed.

Lemma slice_batch {A} (l : list A) (start size : nat) :
  slice l start (Nat.min (start + size) (length l)) = take size (drop start l).
Proof.
  unfold slice. destruct (Nat.le_gt_cases (start + size) (length l)) as [Hle|Hgt].
  - f_equal. lia.
  - rewrite Nat.min_r by lia. rewrite !take_ge; [done| |];
      rewrite length_drop; lia.
Qed.

Lemma concat_batches {A} (l : list A) (size k : nat) :
  concat (map (fun i => take size (drop (i * size) l)) (seq 0 k))
  = take (k * size) l.
Proof.
  induction k as [|k IH]; [done|].
  rewrite seq_S, map_app, concat_app, IH. simpl.
  rewrite app_nil_r, take_take_drop. f_equal. lia.
Qed.

Lemma make_request_terms (query_batch : list string)
    (start_date end_date geo geo_level frequency : string) (req : Request) :
  make_request query_batch start_date end_date geo geo_level frequency = Ok req ->
  terms req = query_batch.
Proof.
  unfold make_request. repeat case_match; by intros [= <-].
Qed.

(** The requests of a call that returns carry the consecutive slices of
    the queries. *)
Lemma batch_requests_terms (queries : list string)
    (start_date end_date geo geo_level frequency : string)
    (exs : list (Request * Response)) :
  Forall2 (fun batch_start ex =>
     batch_request queries start_date end_date geo geo_level frequency
       batch_start = Ok ex.1)
    (range 0 (length queries) MAX_QUERIES) exs ->
  map terms (map fst exs)
  = map (fun i => take MAX_QUERIES (drop (i * MAX_QUERIES) queries))
      (seq 0 (ceil_div (length queries) MAX_QUERIES)).
Proof.
  rewrite range_spec by (unfold MAX_QUERIES; lia).
  generalize (seq 0 (ceil_div (length queries) MAX_QUERIES)). intros idx.
  revert exs. induction idx as [|i idx IH]; intros exs Hall;
    inversion Hall as [|? [req res] ? ? Hreq Hrest]; subst; [done|].
  simpl. f_equal; [|by apply IH].
  unfold batch_request in Hreq. apply make_request_terms in Hreq.
  simpl in Hreq. rewrite Hreq. apply slice_batch.
Qed.

Lemma elem_of_all_points (tr : list Event) (res : Response) (line : Line)
    (point : Point) (date : string) :
  res ∈ received_responses tr -> line ∈ lines res -> point ∈ l_points line ->
  DateToISOString (p_date point) = Ok date ->
  (l_term line, date, p_value point) ∈ all_points tr.
Proof.
  intros Hres Hl Hp Hd.
  apply list_elem_of_In, in_flat_map. exists res.
  split; [by apply list_elem_of_In|].
  apply in_flat_map. exists line. split; [by apply list_elem_of_In|].
  apply list_elem_of_In, list_elem_of_omap. exists point. split; [done|].
  unfold keyed_point. by rewrite Hd.
Qed.

Lemma lookup_merged_is_Some (tr : list Event) (key : string * string) (v : Z) :
  (key, v) ∈ all_points tr -> is_Some (merged tr !! key).
Proof.
  intros Hin. unfold merged.
  apply not_eq_None_Some. intros Hnone.
  apply not_elem_of_list_to_map in Hnone. apply Hnone.
  apply list_elem_of_fmap. exists (key, v).
  split; [done|]. by apply elem_of_reverse.
Qed.

Lemma lookup_merged_NoDup (tr : list Event) (key : string * string) (v : Z) :
  (key, v) ∈ all_points tr -> NoDup (all_points tr).*1 ->
  merged tr !! key = Some v.
Proof.
  intros Hin Hnd. unfold merged. apply elem_of_list_to_map_1.
  - by rewrite fmap_reverse, reverse_Permutation.
  - by apply elem_of_reverse.
Qed.

(** C7. In a call that returns, the requests executed are as many as
    ceil(len(queries) / 30); the i-th carries the slice of at most 30
    queries that starts at 30 i, none is empty, and together, in order,
    they carry the queries; each request has its response, and every point
    of every response has its date as a row of the table and its term and
    date as a key of the merged mapping the rows are filled from. *)
Theorem GetQueryVolumes_batches (env : Environment) (queries : list string)
    (start_date end_date geo geo_level frequency : string)
    (tbl : list (list Cell)) (tr : list Event)
    (Hrun : run (GetQueryVolumes env queries start_date end_date geo
                   geo_level frequency) = (Ok tbl, tr)) :
  length (executed_requests tr) = ceil_div (length queries) 30
  /\ length (received_responses tr) = length (executed_requests tr)
  /\ concat (map terms (executed_requests tr)) = queries
  /\ (forall (i : nat) (req : Request),
        executed_requests tr !! i = Some req ->
        terms req = take 30 (drop (i * 30) queries)
        /\ (0 < length (terms req) <= 30)%nat)
  /\ (forall res line point,
        res ∈ received_responses tr -> line ∈ lines res ->
        point ∈ l_points line ->
        exists date : string,
          DateToISOString (p_date point) = Ok date
          /\ is_Some (merged tr !! (l_term line, date))
          /\ (NoDup (all_points tr).*1 ->
              merged tr !! (l_term line, date) = Some (p_value point))
          /\ (CStr date
              :: map (fun term => CNum (default 0 (merged tr !! (term, date))))
                   queries) ∈ tail tbl).
Proof.
  apply GetQueryVolumes_Ok in Hrun
    as (key & exs & _ & _ & -> & Hall & Hdict & ->).
  pose proof (batch_requests_terms _ _ _ _ _ _ _ Hall) as Hterms.
  change (?e :: batch_events exs) with ([e] ++ batch_events exs).
  unfold executed_requests at 1 2 3 4. rewrite !omap_app.
  fold (executed_requests (batch_events exs)).
  rewrite received_responses_app, received_responses_batch_events.
  rewrite executed_requests_batch_events. simpl.
  change 30%nat with MAX_QUERIES.
  assert (0 < MAX_QUERIES)%nat as Hpos by (unfold MAX_QUERIES; lia).
  split; [|split; [|split; [|split]]].
  - rewrite <- (length_map terms), Hterms, length_map. apply length_seq.
  - by rewrite !length_map.
  - rewrite Hterms, concat_batches. apply take_ge, ceil_div_bound, Hpos.
  - intros i req Hi.
    assert (map terms (map fst exs) !! i = Some (terms req)) as Ht
      by (by rewrite (list_lookup_fmap terms), Hi).
    rewrite Hterms, list_lookup_fmap in Ht.
    destruct (seq 0 (ceil_div (length queries) MAX_QUERIES) !! i) as [j|] eqn:Hj;
      [|done].
    apply lookup_seq in Hj as [-> Hlt]. injection Ht as Ht. rewrite <- Ht.
    simpl. split; [done|]. rewrite length_take, length_drop.
    split; [|lia].
    pose proof (ceil_div_lt _ _ _ Hpos Hlt). lia.
  - intros res line point Hres Hl Hp.
    assert (exists ex, ex ∈ exs /\ ex.2 = res) as (ex & Hex & <-).
    { apply list_elem_of_fmap in Hres as (ex & -> & Hex). eauto. }
    rewrite Forall_forall in Hdict. destruct (Hdict ex Hex) as [d Hd].
    apply res_dict_Ok in Hd as [_ Hdates].
    destruct (Hdates line point Hl Hp) as [date Hdate].
    exists date. split; [done|].
    assert ((l_term line, date, p_value point)
            ∈ all_points ([EvBuild "trends" API_VERSION key DISCOVERY_URL (Ok tt)]
                          ++ batch_events exs)) as Hin.
    { apply (elem_of_all_points _ ex.2); [|done..].
      rewrite received_responses_app, received_responses_batch_events.
      apply list_elem_of_fmap. eauto. }
    pose proof (lookup_merged_is_Some _ _ _ Hin) as Hsome.
    split; [done|]. split; [by apply lookup_merged_NoDup|].
    apply list_elem_of_fmap. exists date. split; [done|].
    apply elem_of_dates_of. eauto.
Qed.

(** Forty-five queries: two requests, of 30 and of 15 terms, and the
    values of both in the one row of the table. *)
Lemma GetQueryVolumes_batches_45 :
  run (GetQueryVolumes echo_service queries45
         "2011-01-01" "2015-01-01" "US" "country" "week") = (Ok table45, trace45)
  /\ length (executed_requests trace45) = ceil_div (length queries45) 30
  /\ length (received_responses trace45) = length (executed_requests trace45)
  /\ concat (map terms (executed_requests trace45)) = queries45
  /\ (forall (i : nat) (req : Request),
        executed_requests trace45 !! i = Some req ->
        terms req = take 30 (drop (i * 30) queries45)
        /\ (0 < length (terms req) <= 30)%nat)
  /\ (forall res line point,
        res ∈ received_responses trace45 -> line ∈ lines res ->
        point ∈ l_points line ->
        exists date : string,
          DateToISOString (p_date point) = Ok date
          /\ is_Some (merged trace45 !! (l_term line, date))
          /\ (NoDup (all_points trace45).*1 ->
              merged trace45 !! (l_term line, date) = Some (p_value point))
          /\ (CStr date
              :: map (fun term => CNum (default 0 (merged trace45 !! (term, date))))
                   queries45) ∈ tail table45).
Proof.
  assert (run (GetQueryVolumes echo_service queries45
                 "2011-01-01" "2015-01-01" "US" "country" "week")
          = (Ok table45, trace45)) as Hrun by (vm_compute; reflexivity).
  split; [exact Hrun|].
  exact (GetQueryVolumes_batches _ _ _ _ _ _ _ _ _ Hrun).
Defined.

(** * Further properties *)

(** ** More on characters *)

Lemma alpha_facts (c : ascii) :
  is_alpha c = true ->
  Char.is_digit c = false /\ Char.is_space c = false.
Proof. each_char c; vm_compute; intros; try discriminate; done. Qed.


Lemma lower_alpha (c : ascii) : is_alpha (Char.lower c) = is_alpha c.
Proof. each_char c; reflexivity. Qed.



(** ** The ends of an accepted string *)

Lemma a_month_alpha (n : nat) (name : string) :
  a_month !! n = Some name ->
  exists a rest, list_ascii_of_string name = a :: rest /\ is_alpha a = true.
Proof.
  unfold a_month.
  do 12 (destruct n as [|n]; [intros [= <-]; by eexists _, _|]). discriminate.
Qed.

Lemma month_text_first (m : Z) (mon : list ascii) :
  month_text m mon -> exists c mon', mon = c :: mon' /\ is_alpha c = true.
Proof.
  intros (name & _ & Hname & Hlow).
  apply a_month_alpha in Hname as (a & tl & Hname & Ha).
  rewrite Hname in Hlow. destruct mon as [|c mon]; [discriminate|].
  injection Hlow as Hc _. exists c, mon. split; [done|].
  by rewrite <- lower_alpha, Hc.
Qed.

Lemma year_text_ends (y : Z) (yyyy : list ascii) :
  year_text y yyyy ->
  (exists c rest, yyyy = c :: rest /\ Char.is_digit c = true)
  /\ (exists c, last yyyy = Some c /\ Char.is_digit c = true).
Proof.
  intros (Hdig & Hlen & _).
  destruct yyyy as [|c1 [|c2 [|c3 [|c4 [|c5 yyyy]]]]]; try discriminate.
  unfold digits in Hdig. split.
  - exists c1, [c2; c3; c4]. split; [done|]. by inversion Hdig.
  - exists c4. split; [done|].
    rewrite Forall_forall in Hdig. apply Hdig. set_solver.
Qed.

Lemma last_app_Some {A} (l1 l2 : list A) (x : A) :
  last l2 = Some x -> last (l1 ++ l2) = Some x.
Proof. intros H. by rewrite last_app, H. Qed.

(** Whatever its shape, an accepted text starts with a letter or a digit
    and ends with a digit. *)
Lemma matches_pattern_ends (p : pattern) (l : list ascii) (y m d : Z) :
  matches_pattern p l y m d ->
  (exists c rest, l = c :: rest
     /\ (is_alpha c = true \/ Char.is_digit c = true))
  /\ (exists c, last l = Some c /\ Char.is_digit c = true).
Proof.
  destruct p.
  - intros (mon & ws1 & dd & ws2 & yyyy & -> & Hmon & _ & _ & _ & Hy).
    apply month_text_first in Hmon as (c & mon' & -> & Hc).
    apply year_text_ends in Hy as [_ (c4 & Hlast & H4)]. split.
    + exists c. eexists. split; [reflexivity|by left].
    + exists c4. split; [|done]. rewrite !app_assoc. by apply last_app_Some.
  - intros (mon & ws & yyyy & -> & Hmon & _ & Hy & _).
    apply month_text_first in Hmon as (c & mon' & -> & Hc).
    apply year_text_ends in Hy as [_ (c4 & Hlast & H4)]. split.
    + exists c. eexists. split; [reflexivity|by left].
    + exists c4. split; [|done]. rewrite !app_assoc. by apply last_app_Some.
  - intros (Hy & _). apply year_text_ends in Hy as [(c & rest & -> & Hc) Hlast].
    split; [|done]. exists c, rest. split; [done|by right].
Qed.

(** The year is written with a digit first. *)
Lemma year_digits_head (y : Z) :
  0 <= y <= 9999 ->
  exists k rest, 0 <= k <= 9 /\ year_digits y = Char.digit_char k :: rest.
Proof.
  intros Hy. unfold year_digits, zero_pad4, zero_pad2.
  repeat case_match; eexists _, _; (split; [|reflexivity]); zdiv.
Qed.

(** X1. DateToISOString does not accept what it returns: whenever it
    turns a string into a date YYYY-MM-DD, it raises its ValueError on that
    date. It cannot be applied twice, and a date that is already in ISO form
    is refused. *)
Theorem DateToISOString_not_idempotent (datestring r : string)
    (Hok : DateToISOString datestring = Ok r) :
  DateToISOString r = Raise InvalidDateFormat.
Proof.
  apply DateToISOString_Ok in Hok as (p & y & m & d & _ & Hcal & ->).
  destruct (DateToISOString _) as [r'|e] eqn:Hr;
    [|by apply DateToISOString_Raise in Hr as ->].
  exfalso. apply DateToISOString_Ok in Hr as (p' & y' & m' & d' & Hm & _ & _).
  unfold strftime_Y_m_d in Hm. rewrite list_ascii_of_string_of_list_ascii in Hm.
  cbn [year month day] in Hm. destruct Hcal as (Hy & _).
  destruct (year_digits_head y) as (k & rest & Hk & Hhead); [lia|].
  rewrite Hhead in Hm. cbn [app] in Hm. destruct p'.
  - destruct Hm as (mon & ws1 & dd & ws2 & yyyy & Heq & Hmon & _).
    apply month_text_first in Hmon as (c & mon' & -> & Hc).
    injection Heq as <- _. apply alpha_facts in Hc as [Hc _].
    by rewrite (proj1 (digit_char_spec _ Hk)) in Hc.
  - destruct Hm as (mon & ws & yyyy & Heq & Hmon & _).
    apply month_text_first in Hmon as (c & mon' & -> & Hc).
    injection Heq as <- _. apply alpha_facts in Hc as [Hc _].
    by rewrite (proj1 (digit_char_spec _ Hk)) in Hc.
  - destruct Hm as ((_ & Hlen & _) & _).
    cbn [length] in Hlen. rewrite length_app in Hlen. simpl in Hlen. lia.
Qed.

Lemma DateToISOString_not_idempotent_jul_2004 :
  DateToISOString "Jul 2004" = Ok "2004-07-01"%string
  /\ DateToISOString "2004-07-01" = Raise InvalidDateFormat.
Proof.
  split; [reflexivity|].
  apply (DateToISOString_not_idempotent "Jul 2004"). reflexivity.
Defined.

(** X2. The input is not trimmed: a string that starts or ends with a
    whitespace character is refused, whatever stands in between. *)
Theorem DateToISOString_no_surrounding_whitespace
    (datestring : string) (c : ascii) (rest : list ascii)
    (Hend : list_ascii_of_string datestring = c :: rest
            \/ list_ascii_of_string datestring = rest ++ [c])
    (Hspace : Char.is_space c = true) :
  DateToISOString datestring = Raise InvalidDateFormat.
Proof.
  destruct (DateToISOString datestring) as [r|e] eqn:Hr;
    [|by apply DateToISOString_Raise in Hr as ->].
  exfalso. apply DateToISOString_Ok in Hr as (p & y & m & d & Hm & _ & _).
  apply matches_pattern_ends in Hm as [(c1 & rest1 & Hfirst & Hc1)
                                         (c2 & Hlast & Hc2)].
  destruct Hend as [Heq|Heq]; rewrite Heq in *.
  - injection Hfirst as -> _.
    destruct Hc1 as [Hc1%alpha_facts|Hc1%digit_not_space]; [|congruence].
    destruct Hc1. congruence.
  - rewrite last_snoc in Hlast. injection Hlast as ->.
    apply digit_not_space in Hc2. congruence.
Qed.

Lemma DateToISOString_trailing_newline :
  DateToISOString (String.append "Jul 04 2004" (String "010" EmptyString))
  = Raise InvalidDateFormat.
Proof.
  apply (DateToISOString_no_surrounding_whitespace _ "010"%char
           (list_ascii_of_string "Jul 04 2004")).
  - right. reflexivity.
  - reflexivity.
Defined.

(** X3. No string is read by two of the three formats: when strptime
    accepts a string with one format it raises with the other two, so the
    order in which DateToISOString tries them never decides a result. *)
Theorem strptime_formats_exclusive (datestring : string) :
  (is_Some (strptime datestring "%b %d %Y") ->
   strptime datestring "%b %Y" = None /\ strptime datestring "%Y" = None)
  /\ (is_Some (strptime datestring "%b %Y") ->
      strptime datestring "%Y" = None).
Proof.
  split.
  - intros [dt (y & m & d & Hm & _)%strptime_full]. split.
    + destruct (strptime datestring "%b %Y") as [dt'|] eqn:H2; [|done].
      apply strptime_month_year in H2 as (y' & m' & d' & Hm' & _).
      destruct (full_not_month_year _ _ _ _ _ _ _ Hm Hm').
    + destruct (strptime datestring "%Y") as [dt'|] eqn:H3; [|done].
      apply strptime_year in H3 as (y' & m' & d' & Hm' & _).
      by pose proof (year_not_month _ _ _ _ _ _ _ _ Hm' Hm).
  - intros [dt (y & m & d & Hm & _)%strptime_month_year].
    destruct (strptime datestring "%Y") as [dt'|] eqn:H3; [|done].
    apply strptime_year in H3 as (y' & m' & d' & Hm' & _).
    by pose proof (year_not_month _ _ _ _ _ _ _ _ Hm' Hm).
Qed.

Lemma strptime_formats_exclusive_jul_2004 :
  strptime "Jul 2004" "%Y" = None.
Proof.
  apply (proj2 (strptime_formats_exclusive "Jul 2004")).
  eexists. reflexivity.
Defined.

(** ** Letter case *)

Lemma same_letter_refl (c : ascii) : same_letter c c.
Proof. reflexivity. Qed.










(** ** The order of ISO dates *)

Lemma ascii_compare_digit (k k' : Z) :
  0 <= k <= 9 -> 0 <= k' <= 9 ->
  Ascii.compare (Char.digit_char k) (Char.digit_char k') = (k ?= k').
Proof.
  intros Hk Hk'. digit_cases_of k Hk; digit_cases_of k' Hk'; reflexivity.
Qed.

Lemma string_compare_cons (a b : ascii) (l l' : list ascii) :
  String.compare (string_of_list_ascii (a :: l)) (string_of_list_ascii (b :: l'))
  = match Ascii.compare a b with
    | Eq => String.compare (string_of_list_ascii l) (string_of_list_ascii l')
    | c => c
    end.
Proof. simpl. by destruct (Ascii.compare a b). Qed.

Lemma compare_two_digits (a1 a0 b1 b0 : Z) (rest : comparison) :
  0 <= a1 <= 9 -> 0 <= a0 <= 9 -> 0 <= b1 <= 9 -> 0 <= b0 <= 9 ->
  match a1 ?= b1 with
  | Eq => match a0 ?= b0 with Eq => rest | c => c end
  | c => c
  end
  = match 10 * a1 + a0 ?= 10 * b1 + b0 with Eq => rest | c => c end.
Proof.
  intros. destruct (Z.compare_spec a1 b1), (Z.compare_spec a0 b0),
    (Z.compare_spec (10 * a1 + a0) (10 * b1 + b0));
    first [reflexivity | exfalso; lia].
Qed.

Lemma compare_pad2 (n n' : Z) (x x' : list ascii) :
  0 <= n <= 99 -> 0 <= n' <= 99 ->
  String.compare (string_of_list_ascii (zero_pad2 n ++ x))
    (string_of_list_ascii (zero_pad2 n' ++ x'))
  = match n ?= n' with
    | Eq => String.compare (string_of_list_ascii x) (string_of_list_ascii x')
    | c => c
    end.
Proof.
  intros Hn Hn'. unfold zero_pad2. cbn [app].
  assert (0 <= n / 10 mod 10 <= 9) by zdiv. assert (0 <= n mod 10 <= 9) by zdiv.
  assert (0 <= n' / 10 mod 10 <= 9) by zdiv. assert (0 <= n' mod 10 <= 9) by zdiv.
  rewrite !string_compare_cons, !ascii_compare_digit by done.
  rewrite compare_two_digits by done.
  replace (10 * (n / 10 mod 10) + n mod 10) with n by zdiv.
  by replace (10 * (n' / 10 mod 10) + n' mod 10) with n' by zdiv.
Qed.

Lemma zero_pad4_split (n : Z) :
  0 <= n <= 9999 ->
  zero_pad4 n = zero_pad2 (n / 100) ++ zero_pad2 (n mod 100).
Proof.
  intros Hn. unfold zero_pad4, zero_pad2. cbn [app].
  replace (n / 100 / 10 mod 10) with (n / 1000 mod 10) by zdiv.
  replace (n mod 100 / 10 mod 10) with (n / 10 mod 10) by zdiv.
  replace (n mod 100 mod 10) with (n mod 10) by zdiv.
  replace (n / 100 mod 10) with (n / 100 mod 10) by zdiv. done.
Qed.

Lemma compare_pad4 (n n' : Z) (x x' : list ascii) :
  0 <= n <= 9999 -> 0 <= n' <= 9999 ->
  String.compare (string_of_list_ascii (zero_pad4 n ++ x))
    (string_of_list_ascii (zero_pad4 n' ++ x'))
  = match n ?= n' with
    | Eq => String.compare (string_of_list_ascii x) (string_of_list_ascii x')
    | c => c
    end.
Proof.
  intros Hn Hn'.
  rewrite !zero_pad4_split, <- !app_assoc by done.
  rewrite compare_pad2 by zdiv. rewrite compare_pad2 by zdiv.
  destruct (Z.compare_spec (n / 100) (n' / 100)),
    (Z.compare_spec (n mod 100) (n' mod 100)), (Z.compare_spec n n');
    first [reflexivity | exfalso; zdiv].
Qed.

(** From the year 1000 on, the strings [strftime] writes compare as the
    dates do. *)
Lemma strftime_compare (a b : datetime) :
  is_calendar_date a -> is_calendar_date b ->
  1000 <= year a -> 1000 <= year b ->
  String.compare (strftime_Y_m_d a) (strftime_Y_m_d b) = date_compare a b.
Proof.
  intros (Hy & Hm & Hd) (Hy' & Hm' & Hd') Hya Hyb.
  pose proof (days_in_month_bound (year a) (month a)).
  pose proof (days_in_month_bound (year b) (month b)).
  unfold strftime_Y_m_d, date_compare.
  rewrite !year_digits_four by done.
  rewrite compare_pad4 by lia. destruct (year a ?= year b); try done.
  rewrite string_compare_cons. change (Ascii.compare "-" "-") with Eq.
  rewrite compare_pad2 by lia. destruct (month a ?= month b); try done.
  rewrite string_compare_cons. change (Ascii.compare "-" "-") with Eq.
  rewrite <- (app_nil_r (zero_pad2 (day a))), <- (app_nil_r (zero_pad2 (day b))).
  rewrite compare_pad2 by lia. by destruct (day a ?= day b).
Qed.

(** X5. For days of the year 1000 and later, the dates DateToISOString
    returns compare, as strings, the way the days they name compare in the
    calendar: the earlier day gives the smaller string, and two inputs give
    the same string exactly when they name the same day, as Jul 2004 and
    Jul 01 2004 do. *)
Theorem DateToISOString_order (s1 s2 : string) (p1 p2 : pattern)
    (y1 m1 d1 y2 m2 d2 : Z)
    (Hshape1 : matches_pattern p1 (list_ascii_of_string s1) y1 m1 d1)
    (Hdate1 : calendar_date y1 m1 d1)
    (Hyear1 : 1000 <= y1)
    (Hshape2 : matches_pattern p2 (list_ascii_of_string s2) y2 m2 d2)
    (Hdate2 : calendar_date y2 m2 d2)
    (Hyear2 : 1000 <= y2) :
  exists r1 r2,
    DateToISOString s1 = Ok r1 /\ DateToISOString s2 = Ok r2
    /\ String.compare r1 r2
       = date_compare (mk_datetime y1 m1 d1) (mk_datetime y2 m2 d2)
    /\ (r1 = r2 <-> y1 = y2 /\ m1 = m2 /\ d1 = d2).
Proof.
  exists (strftime_Y_m_d (mk_datetime y1 m1 d1)),
         (strftime_Y_m_d (mk_datetime y2 m2 d2)).
  split; [apply DateToISOString_Ok; by exists p1, y1, m1, d1|].
  split; [apply DateToISOString_Ok; by exists p2, y2, m2, d2|].
  pose proof (strftime_compare (mk_datetime y1 m1 d1) (mk_datetime y2 m2 d2)
                Hdate1 Hdate2 Hyear1 Hyear2) as Hcmp.
  split; [done|]. split.
  - intros Heq. rewrite Heq, string_compare_refl in Hcmp.
    unfold date_compare in Hcmp. simpl in Hcmp.
    destruct (Z.compare_spec y1 y2); try discriminate.
    destruct (Z.compare_spec m1 m2); try discriminate.
    destruct (Z.compare_spec d1 d2); try discriminate. done.
  - by intros (-> & -> & ->).
Qed.

Lemma DateToISOString_order_jul_2004 :
  exists r1 r2,
    DateToISOString "Jul 2004" = Ok r1 /\ DateToISOString "Jul 01 2004" = Ok r2
    /\ String.compare r1 r2
       = date_compare (mk_datetime 2004 7 1) (mk_datetime 2004 7 1)
    /\ (r1 = r2 <-> 2004 = 2004 /\ 7 = 7 /\ 1 = 1).
Proof.
  apply (DateToISOString_order "Jul 2004" "Jul 01 2004" MonthYear FullDate).
  - apply match_items_month_year. vm_compute. reflexivity.
  - unfold calendar_date. vm_compute. intuition discriminate.
  - lia.
  - apply match_items_full. vm_compute. reflexivity.
  - unfold calendar_date. vm_compute. intuition discriminate.
  - lia.
Defined.

(** Before the year 1000 the order of the strings is not the order of the
    days: the first of January 999 is written 999-01-01, which comes after
    2015-01-04. *)
Example DateToISOString_order_0999 :
  DateToISOString "0999" = Ok "999-01-01"%string
  /\ DateToISOString "Jan 04 2015" = Ok "2015-01-04"%string
  /\ String.compare "999-01-01" "2015-01-04" = Gt
  /\ date_compare (mk_datetime 999 1 1) (mk_datetime 2015 1 4) = Lt.
Proof. repeat split. Qed.

(** ** Every run of the loop *)

Lemma make_request_Raise (query_batch : list string)
    (start_date end_date geo geo_level frequency : string) (e : Exn) :
  make_request query_batch start_date end_date geo geo_level frequency = Raise e ->
  e = InvalidArgument /\ restriction_of geo geo_level = None.
Proof.
  unfold make_request, restriction_of. repeat case_match; try discriminate.
  by intros [= <-].
Qed.

Lemma make_request_Ok (query_batch : list string)
    (start_date end_date geo geo_level frequency : string) (req : Request) :
  make_request query_batch start_date end_date geo geo_level frequency = Ok req ->
  exists restriction,
    restriction_of geo geo_level = Some restriction
    /\ req = mk_request query_batch start_date end_date frequency restriction.
Proof.
  unfold make_request, restriction_of. repeat case_match; try discriminate;
    intros [= <-]; by eexists.
Qed.

(** The trace and the result of the loop, however it ends: the batches
    that went through, in order, then the batch it stopped in. *)
Lemma batch_loop_shape (env : Environment) (queries : list string)
    (start_date end_date geo geo_level frequency : string)
    (batch_intervals : list nat) (dat : Dat) (tr0 tr1 : list Event)
    (r : Result Dat) :
  batch_loop env queries start_date end_date geo geo_level frequency
    batch_intervals dat tr0 = (r, tr1) ->
  exists (exs : list (Request * Response)) (stop : Stop),
    tr1 = tr0 ++ batch_events exs ++ stop_events stop
    /\ Forall2 (fun batch_start ex =>
         batch_request queries start_date end_date geo geo_level frequency
           batch_start = Ok ex.1) (take (length exs) batch_intervals) exs
    /\ Forall (fun ex => exists d, res_dict ex.2 = Ok d) exs
    /\ match stop_error stop with
       | None =>
           length exs = length batch_intervals
           /\ r = Ok (list_to_map
                        (reverse (flat_map response_points (map snd exs))) ∪ dat)
       | Some e =>
           r = Raise e
           /\ exists batch_start,
                batch_intervals !! length exs = Some batch_start
                /\ match stop_request stop with
                   | Some req =>
                       batch_request queries start_date end_date geo geo_level
                         frequency batch_start = Ok req
                   | None =>
                       batch_request queries start_date end_date geo geo_level
                         frequency batch_start = Raise InvalidArgument
                   end
       end.
Proof.
  revert dat tr0. induction batch_intervals as [|batch_start rest IH];
    intros dat tr0; simpl.
  - intros [= <- <-]. exists [], Completed. simpl. rewrite app_nil_r.
    split; [done|]. split; [constructor|]. split; [constructor|].
    split; [done|]. by rewrite (left_id_L ∅ (∪)).
  - unfold bind, lift, execute, sleep. fold (batch_request queries start_date
      end_date geo geo_level frequency batch_start).
    destruct (batch_request _ _ _ _ _ _ _) as [req|e] eqn:Hreq.
    2:{ intros [= <- <-]. exists [], Refused. simpl. rewrite app_nil_r.
        apply make_request_Raise in Hreq as Hreq'. destruct Hreq' as [-> _].
        split; [done|]. split; [constructor|]. split; [constructor|].
        split; [done|]. by exists batch_start. }
    destruct (remote_execute env tr0 req) as [res|e] eqn:Hres.
    2:{ intros [= <- <-]. exists [], (Failed req e). simpl.
        split; [done|]. split; [constructor|]. split; [constructor|].
        split; [done|]. by exists batch_start. }
    destruct (res_dict res) as [d|e] eqn:Hd.
    2:{ intros [= <- <-]. apply res_dict_Raise in Hd as ->.
        exists [], (Misdated req res). simpl.
        split; [by rewrite <- app_assoc|]. split; [constructor|].
        split; [constructor|]. split; [done|]. by exists batch_start. }
    intros (exs & stop & -> & Hall & Hdict & Hend)%IH.
    pose proof Hd as [-> _]%res_dict_Ok.
    exists ((req, res) :: exs), stop. simpl. split.
    { by rewrite <- !app_assoc. }
    split; [by constructor|]. split; [constructor; eauto|].
    destruct (stop_error stop) as [e|].
    + done.
    + destruct Hend as [-> ->]. split; [done|].
      rewrite reverse_app, list_to_map_app. by rewrite (assoc_L (∪)).
Qed.

(** The same for [GetQueryVolumes], started on any trace: the guard, the
    build, then the loop. *)
Lemma GetQueryVolumes_shape (env : Environment) (queries : list string)
    (start_date end_date geo geo_level frequency : string)
    (tr0 tr1 : list Event) (r : Result (list (list Cell))) :
  GetQueryVolumes env queries start_date end_date geo geo_level frequency tr0
  = (r, tr1) ->
  (truthy (API_KEY env) = false /\ r = Raise ConfigurationError /\ tr1 = tr0)
  \/ exists key : string,
       API_KEY env = Some key /\ key <> EmptyString
       /\ ((exists e,
              r = Raise e
              /\ tr1 = tr0 ++ [EvBuild "trends" API_VERSION key DISCOVERY_URL
                                 (Raise e)])
           \/ exists (exs : list (Request * Response)) (stop : Stop),
                tr1 = tr0 ++ EvBuild "trends" API_VERSION key DISCOVERY_URL (Ok tt)
                             :: batch_events exs ++ stop_events stop
                /\ Forall2 (fun batch_start ex =>
                     batch_request queries start_date end_date geo geo_level
                       frequency batch_start = Ok ex.1)
                     (take (length exs) (range 0 (length queries) MAX_QUERIES))
                     exs
                /\ Forall (fun ex => exists d, res_dict ex.2 = Ok d) exs
                /\ match stop_error stop with
                   | None =>
                       length exs
                       = length (range 0 (length queries) MAX_QUERIES)
                       /\ r = Ok (make_table queries
                                    (list_to_map
                                       (reverse (flat_map response_points
                                                   (map snd exs)))))
                   | Some e =>
                       r = Raise e
                       /\ exists batch_start,
                            range 0 (length queries) MAX_QUERIES !! length exs
                            = Some batch_start
                            /\ match stop_request stop with
                               | Some req =>
                                   batch_request queries start_date end_date geo
                                     geo_level frequency batch_start = Ok req
                               | None =>
                                   batch_request queries start_date end_date geo
                                     geo_level frequency batch_start
                                   = Raise InvalidArgument
                               end
                   end).
Proof.
  unfold GetQueryVolumes.
  destruct (truthy (API_KEY env)) eqn:Hkey; simpl.
  2:{ intros [= <- <-]. by left. }
  apply truthy_Some in Hkey as (key & Hkey & Hne). rewrite Hkey. simpl.
  intros Hrun. right. exists key. split; [done|]. split; [done|].
  revert Hrun. unfold bind at 1. unfold build. simpl.
  destruct (remote_build env _ _ _ _) as [[]|e] eqn:Hb.
  2:{ intros [= <- <-]. left. by exists e. }
  unfold bind.
  destruct (batch_loop _ _ _ _ _ _ _ _ _ _) as [rd tr] eqn:Hloop.
  apply batch_loop_shape in Hloop as (exs & stop & -> & Hall & Hdict & Hend).
  intros Hr. right. exists exs, stop.
  split; [destruct rd; injection Hr as _ <-; by rewrite <- app_assoc|].
  split; [done|]. split; [done|].
  destruct (stop_error stop) as [e|].
  - destruct Hend as [-> Hend]. injection Hr as <- _. done.
  - destruct Hend as [Hlen ->]. unfold ret in Hr. injection Hr as <- _.
    split; [done|]. by rewrite (right_id_L ∅ (∪)).
Qed.

(** ** Requests, pauses and failures of every run *)

Lemma executed_requests_stop (stop : Stop) :
  executed_requests (stop_events stop) = option_list (stop_request stop).
Proof. by destruct stop. Qed.

Lemma received_responses_stop (stop : Stop) :
  length (received_responses (stop_events stop))
  = length (pauses (stop_events stop)).
Proof. by destruct stop. Qed.

Lemma pauses_stop (stop : Stop) :
  pauses (stop_events stop) = replicate (length (pauses (stop_events stop))) 1.
Proof. by destruct stop. Qed.

(** The i-th request of a run is the request of the i-th batch. *)
Lemma executed_request_batch (env : Environment) (queries : list string)
    (start_date end_date geo geo_level frequency : string)
    (r : Result (list (list Cell))) (tr : list Event) (i : nat) (req : Request) :
  run (GetQueryVolumes env queries start_date end_date geo geo_level frequency)
  = (r, tr) ->
  executed_requests tr !! i = Some req ->
  exists batch_start,
    range 0 (length queries) MAX_QUERIES !! i = Some batch_start
    /\ batch_request queries start_date end_date geo geo_level frequency
         batch_start = Ok req.
Proof.
  unfold run.
  intros [(_ & _ & ->)|(key & _ & _ & [(e & _ & ->)|(exs & stop & -> & Hall & _
                                                    & Hend)])]%GetQueryVolumes_shape;
    try done.
  simpl. unfold executed_requests. rewrite omap_app.
  fold (executed_requests (batch_events exs)).
  fold (executed_requests (stop_events stop)).
  rewrite executed_requests_batch_events, executed_requests_stop.
  intros Hi. destruct (decide (i < length exs)%nat) as [Hlt|Hge].
  - rewrite lookup_app_l in Hi by (by rewrite length_map).
    rewrite list_lookup_fmap in Hi.
    destruct (exs !! i) as [ex|] eqn:Hex; [|done]. injection Hi as <-.
    destruct (Forall2_lookup_r _ _ _ _ _ Hall Hex) as (batch_start & Hs & Hreq).
    exists batch_start. split; [|done].
    by apply lookup_take_Some in Hs as [Hs _].
  - rewrite lookup_app_r in Hi by (rewrite length_map; lia).
    rewrite length_map in Hi.
    destruct (stop_request stop) as [req'|] eqn:Hstop; [|done].
    destruct (i - length exs)%nat as [|n] eqn:Hn; [|done].
    injection Hi as <-. assert (i = length exs) as -> by lia.
    destruct stop; try discriminate; simpl in *; injection Hstop as ->;
      destruct Hend as (_ & batch_start & Hs & Hreq); eauto.
Qed.

(** X6. In every run, whether it returns or raises, the i-th request
    executed is the one of the i-th batch: it carries queries[30i:30i+30],
    the start date, the end date and the frequency of the call unchanged,
    and geo in the one restriction that geo_level selects. *)
Theorem GetQueryVolumes_requests (env : Environment) (queries : list string)
    (start_date end_date geo geo_level frequency : string)
    (r : Result (list (list Cell))) (tr : list Event) (i : nat) (req : Request)
    (Hrun : run (GetQueryVolumes env queries start_date end_date geo
                   geo_level frequency) = (r, tr))
    (Hreq : executed_requests tr !! i = Some req) :
  (i < ceil_div (length queries) 30)%nat
  /\ terms req = take 30 (drop (i * 30) queries)
  /\ time_startDate req = start_date
  /\ time_endDate req = end_date
  /\ timelineResolution req = frequency
  /\ restriction_of geo geo_level = Some (geoRestriction req).
Proof.
  destruct (executed_request_batch _ _ _ _ _ _ _ _ _ _ _ Hrun Hreq)
    as (batch_start & Hs & Hb).
  rewrite range_spec in Hs by (unfold MAX_QUERIES; lia).
  rewrite list_lookup_fmap in Hs.
  destruct (seq 0 (ceil_div (length queries) MAX_QUERIES) !! i) as [j|] eqn:Hj;
    [|done].
  apply lookup_seq in Hj as [-> Hlt]. injection Hs as <-.
  unfold batch_request in Hb. rewrite slice_batch in Hb.
  apply make_request_Ok in Hb as (restriction & Hres & ->). simpl.
  by repeat split.
Qed.

Lemma GetQueryVolumes_requests_second_batch :
  let req := request_of ["flu"%string] in
  (1 < ceil_div (length queries31) 30)%nat
  /\ terms req = take 30 (drop (1 * 30) queries31)
  /\ time_startDate req = "2011-01-01"%string
  /\ time_endDate req = "2015-01-01"%string
  /\ timelineResolution req = "week"%string
  /\ restriction_of "US" "country" = Some (geoRestriction req).
Proof.
  refine (GetQueryVolumes_requests second_batch_malformed queries31
            "2011-01-01" "2015-01-01" "US" "country" "week"
            (Raise InvalidDateFormat) _ 1 _ _ _);
    vm_compute; reflexivity.
Defined.

(** X7. In every run there is one pause of 1 second for each request
    that was answered, also for the one whose dates are then refused, and
    none for a request that raised; at most one request goes without a
    response. *)
Theorem GetQueryVolumes_pauses_any_run (env : Environment)
    (queries : list string)
    (start_date end_date geo geo_level frequency : string)
    (r : Result (list (list Cell))) (tr : list Event)
    (Hrun : run (GetQueryVolumes env queries start_date end_date geo
                   geo_level frequency) = (r, tr)) :
  pauses tr = replicate (length (received_responses tr)) 1
  /\ (length (received_responses tr) <= length (executed_requests tr)
      <= S (length (received_responses tr)))%nat.
Proof.
  unfold run in Hrun.
  apply GetQueryVolumes_shape in Hrun
    as [(_ & _ & ->)|(key & _ & _ & [(e & _ & ->)|(exs & stop & -> & _)])];
    try (split; [done|simpl; lia]).
  simpl. unfold pauses, executed_requests. rewrite !omap_app.
  rewrite received_responses_app.
  fold (pauses (batch_events exs)). fold (pauses (stop_events stop)).
  fold (executed_requests (batch_events exs)).
  fold (executed_requests (stop_events stop)).
  rewrite pauses_batch_events, received_responses_batch_events,
    executed_requests_batch_events, pauses_stop, executed_requests_stop.
  rewrite !length_app, !length_map, received_responses_stop.
  split; [by rewrite replicate_add|].
  destruct stop; simpl; lia.
Qed.

Lemma GetQueryVolumes_pauses_failed_request :
  let tr := [the_build;
             EvExecute (request_of (replicate 30 "flu"%string)) (Ok flu_response);
             EvSleep 1;
             EvExecute (request_of ["flu"%string])
               (Raise (TransportError "503"))] in
  pauses tr = replicate (length (received_responses tr)) 1
  /\ (length (received_responses tr) <= length (executed_requests tr)
      <= S (length (received_responses tr)))%nat.
Proof.
  refine (GetQueryVolumes_pauses_any_run second_request_fails queries31
            "2011-01-01" "2015-01-01" "US" "country" "week"
            (Raise (TransportError "503")) _ _).
  vm_compute. reflexivity.
Defined.

Lemma raised_batch_events (exs : list (Request * Response)) (ev : Event) (e : Exn) :
  ev ∈ batch_events exs -> ~ raised ev e.
Proof.
  induction exs as [|ex exs IH]; simpl; [by intros ?%elem_of_nil|].
  intros [->|[->|Hin]%elem_of_cons]%elem_of_cons; auto.
Qed.

(** X8. An exception of the outside is passed on as it is and ends the
    call at once: if building the service or executing a request raised e,
    the call raises e, and that build or request is the last event of the
    trace, with no pause and no further request after it. *)
Theorem GetQueryVolumes_failure_surfaces (env : Environment)
    (queries : list string)
    (start_date end_date geo geo_level frequency : string)
    (r : Result (list (list Cell))) (tr : list Event) (ev : Event) (e : Exn)
    (Hrun : run (GetQueryVolumes env queries start_date end_date geo
                   geo_level frequency) = (r, tr))
    (Hin : ev ∈ tr) (Hraised : raised ev e) :
  r = Raise e /\ last tr = Some ev.
Proof.
  unfold run in Hrun.
  apply GetQueryVolumes_shape in Hrun
    as [(_ & _ & ->)|(key & _ & _ & [(e' & -> & ->)|(exs & stop & -> & _ & _
                                                    & Hend)])].
  - by apply elem_of_nil in Hin.
  - apply list_elem_of_singleton in Hin as ->. simpl in Hraised.
    by subst e'.
  - simpl in Hin. apply elem_of_cons in Hin as [->|Hin]; [done|].
    apply elem_of_app in Hin as [Hin|Hin].
    { by destruct (raised_batch_events _ _ e Hin). }
    destruct stop as [| |req e'|req res]; simpl in Hin.
    + by apply elem_of_nil in Hin.
    + by apply elem_of_nil in Hin.
    + apply list_elem_of_singleton in Hin as ->. simpl in Hraised. subst e'.
      simpl in Hend. destruct Hend as [-> _]. split; [done|].
      change (?b :: batch_events exs ++ ?t) with ((b :: batch_events exs) ++ t).
      by rewrite app_nil_l, last_app.
    + apply elem_of_cons in Hin as [->|Hin]; [done|].
      by apply list_elem_of_singleton in Hin as ->.
Qed.

Lemma GetQueryVolumes_failure_surfaces_503 :
  let ev := EvExecute (request_of ["flu"%string]) (Raise (TransportError "503")) in
  let tr := [the_build;
             EvExecute (request_of (replicate 30 "flu"%string)) (Ok flu_response);
             EvSleep 1; ev] in
  Raise (A := list (list Cell)) (TransportError "503")
  = Raise (TransportError "503")
  /\ last tr = Some ev.
Proof.
  intros ev tr.
  refine (GetQueryVolumes_failure_surfaces second_request_fails queries31
            "2011-01-01" "2015-01-01" "US" "country" "week" _ tr ev _ _ _ _).
  - vm_compute. reflexivity.
  - do 3 apply list_elem_of_further. apply list_elem_of_here.
  - reflexivity.
Defined.

(** ** When the call returns *)

Lemma points_dict_Raise_point (term : string) (points : list Point) (acc : Dat)
    (e : Exn) :
  points_dict term points acc = Raise e ->
  exists point, point ∈ points
    /\ forall date, DateToISOString (p_date point) <> Ok date.
Proof.
  revert acc. induction points as [|point points IH]; intros acc; simpl;
    [discriminate|].
  destruct (DateToISOString (p_date point)) as [date|e'] eqn:Hd.
  - intros (pt & Hin & Hbad)%IH. exists pt. split; [by right|done].
  - intros _. exists point. split; [by left|]. intros date. congruence.
Qed.

Lemma res_dict_well_dated (res : Response) :
  well_dated res -> exists d, res_dict res = Ok d.
Proof.
  unfold well_dated, res_dict. generalize (∅ : Dat).
  induction (lines res) as [|line ls IH]; intros acc Hall; simpl; [by eexists|].
  destruct (points_dict _ _ _) as [acc'|e] eqn:Hp.
  - apply IH. intros l pt Hl. apply Hall. by right.
  - apply points_dict_Raise_point in Hp as (pt & Hin & Hbad).
    destruct (Hall line pt) as [date Hdate]; [by left|done|].
    by destruct (Hbad date).
Qed.

Lemma batch_loop_succeeds (env : Environment) (queries : list string)
    (start_date end_date geo geo_level frequency : string)
    (batch_intervals : list nat) (dat : Dat) (tr0 : list Event) :
  is_Some (restriction_of geo geo_level) ->
  (forall tr req, exists res,
      remote_execute env tr req = Ok res /\ well_dated res) ->
  exists dat' tr1,
    batch_loop env queries start_date end_date geo geo_level frequency
      batch_intervals dat tr0 = (Ok dat', tr1).
Proof.
  intros [restriction Hgeo] Hremote. revert dat tr0.
  induction batch_intervals as [|batch_start rest IH]; intros dat tr0; simpl.
  - by eexists _, _.
  - unfold bind, lift, execute, sleep.
    destruct (make_request _ _ _ _ _ _) as [req|e] eqn:Hreq.
    2:{ apply make_request_Raise in Hreq as [_ Hnone]. congruence. }
    destruct (Hremote tr0 req) as (res & -> & Hdated).
    destruct (res_dict_well_dated res Hdated) as [d ->]. apply IH.
Qed.

(** X9. The call returns a table whenever nothing stands in its way: an
    API key is configured, the service can be built, geo_level is one of
    country, dma and region, and the service answers every request with
    dates that DateToISOString accepts. *)
Theorem GetQueryVolumes_returns (env : Environment) (queries : list string)
    (start_date end_date geo geo_level frequency key : string)
    (Hkey : API_KEY env = Some key) (Hne : key <> EmptyString)
    (Hbuild : remote_build env "trends" API_VERSION key DISCOVERY_URL = Ok tt)
    (Hgeo : geo_level = "country"%string \/ geo_level = "dma"%string
            \/ geo_level = "region"%string)
    (Hremote : forall tr req, exists res,
        remote_execute env tr req = Ok res /\ well_dated res) :
  exists tbl tr,
    run (GetQueryVolumes env queries start_date end_date geo geo_level
           frequency) = (Ok tbl, tr).
Proof.
  unfold run, GetQueryVolumes. rewrite Hkey.
  destruct key as [|c key]; [done|]. simpl.
  unfold bind at 1. unfold build. simpl. rewrite Hbuild. unfold bind.
  edestruct batch_loop_succeeds as (dat & tr & ->); [|exact Hremote|].
  - destruct Hgeo as [-> | [-> | ->]]; by eexists.
  - by eexists _, _.
Qed.

Lemma GetQueryVolumes_returns_echo :
  exists tbl tr,
    run (GetQueryVolumes echo_service queries45
           "2011-01-01" "2015-01-01" "US-MA" "region" "day") = (Ok tbl, tr).
Proof.
  apply (GetQueryVolumes_returns echo_service _ _ _ _ _ _ "key");
    try reflexivity; [discriminate|by right; right|].
  intros tr req. exists (echo_response req). split; [reflexivity|].
  intros line point (term & -> & _)%list_elem_of_fmap Hp.
  apply list_elem_of_singleton in Hp as ->. by eexists.
Defined.

(** ** What the table shows *)

Lemma lookup_merged_last (tr : list Event) (l1 l2 : list (string * string * Z))
    (key : string * string) (v : Z) :
  all_points tr = l1 ++ (key, v) :: l2 -> key ∉ l2.*1 ->
  merged tr !! key = Some v.
Proof.
  intros Hpts Hnot. unfold merged. rewrite Hpts.
  rewrite reverse_app, reverse_cons, <- app_assoc, list_to_map_app.
  apply lookup_union_Some_raw. right. split.
  - apply not_elem_of_list_to_map. by rewrite fmap_reverse, elem_of_reverse.
  - simpl. apply lookup_insert_eq.
Qed.

Lemma table_row_elem (queries : list string) (dat : Dat) (date term : string) :
  is_Some (dat !! (term, date)) ->
  table_row queries dat date ∈ tail (make_table queries dat).
Proof.
  intros Hsome. simpl. apply list_elem_of_fmap. exists date. split; [done|].
  apply elem_of_dates_of. eauto.
Qed.

(** X10. When the same term and date come more than once, in one response
    or in several, the value received last is the one in the table: the
    row of that date shows it in every column of that term. *)
Theorem GetQueryVolumes_last_value_wins (env : Environment)
    (queries : list string)
    (start_date end_date geo geo_level frequency : string)
    (tbl : list (list Cell)) (tr : list Event)
    (l1 l2 : list (string * string * Z)) (term date : string) (v : Z)
    (Hrun : run (GetQueryVolumes env queries start_date end_date geo
                   geo_level frequency) = (Ok tbl, tr))
    (Hpoints : all_points tr = l1 ++ (term, date, v) :: l2)
    (Hlast : (term, date) ∉ l2.*1) :
  exists row,
    row ∈ tail tbl /\ row !! 0%nat = Some (CStr date)
    /\ forall j, queries !! j = Some term -> row !! S j = Some (CNum v).
Proof.
  apply GetQueryVolumes_Ok in Hrun as (key & exs & _ & _ & _ & _ & _ & ->).
  pose proof (lookup_merged_last _ _ _ _ _ Hpoints Hlast) as Hv.
  exists (table_row queries (merged tr) date).
  split; [by eapply table_row_elem|]. split; [done|].
  intros j Hj. unfold table_row. simpl.
  by rewrite list_lookup_fmap, Hj; simpl; rewrite Hv.
Qed.

Lemma GetQueryVolumes_last_value_wins_repeated :
  exists row,
    row ∈ [[CStr "2015-01-01"; CNum 2; CNum 0];
           [CStr "2015-01-04"; CNum 3; CNum 0]]
    /\ row !! 0%nat = Some (CStr "2015-01-04")
    /\ forall j, flu_cough !! j = Some "flu"%string ->
         row !! S j = Some (CNum 3).
Proof.
  refine (GetQueryVolumes_last_value_wins (constant_service repeated_response)
            flu_cough "2011-01-01" "2015-01-01" "US" "country" "week"
            [[CStr "date"; CStr "flu"; CStr "cough"];
             [CStr "2015-01-01"; CNum 2; CNum 0];
             [CStr "2015-01-04"; CNum 3; CNum 0]]
            [the_build; EvExecute flu_cough_request (Ok repeated_response);
             EvSleep 1]
            [("flu", "2015-01-04", 1); ("flu", "2015-01-01", 2)]%string []
            "flu" "2015-01-04" 3 _ _ _).
  - vm_compute. reflexivity.
  - vm_compute. reflexivity.
  - apply not_elem_of_nil.
Defined.

(** X11. A date for which the responses hold only terms that are not
    among the queries still gets its row, and the row is all zeros: the
    values of such terms are dropped without notice. *)
Theorem GetQueryVolumes_unrequested_terms (env : Environment)
    (queries : list string)
    (start_date end_date geo geo_level frequency : string)
    (tbl : list (list Cell)) (tr : list Event) (term date : string) (v : Z)
    (Hrun : run (GetQueryVolumes env queries start_date end_date geo
                   geo_level frequency) = (Ok tbl, tr))
    (Hpoint : (term, date, v) ∈ all_points tr)
    (Hother : forall t w, (t, date, w) ∈ all_points tr -> t ∉ queries) :
  (CStr date :: replicate (length queries) (CNum 0)) ∈ tail tbl.
Proof.
  apply GetQueryVolumes_Ok in Hrun as (key & exs & _ & _ & _ & _ & _ & ->).
  replace (CStr date :: replicate (length queries) (CNum 0))
    with (table_row queries (merged tr) date).
  { eapply table_row_elem. by eapply lookup_merged_is_Some. }
  unfold table_row. f_equal.
  assert (forall t, t ∈ queries -> merged tr !! (t, date) = None) as Hnone.
  { intros t Ht. destruct (merged tr !! (t, date)) as [w|] eqn:Hw; [|done].
    apply elem_of_list_to_map_2 in Hw. rewrite elem_of_reverse in Hw.
    by destruct (Hother t w Hw). }
  clear Hother Hpoint. induction queries as [|q queries IH]; [done|].
  simpl. rewrite Hnone by (by left). simpl. f_equal.
  apply IH. intros t Ht. apply Hnone. by right.
Qed.

Lemma GetQueryVolumes_unrequested_terms_influenza :
  (CStr "2015-01-04" :: replicate (length flu_cough) (CNum 0))
  ∈ tail [[CStr "date"; CStr "flu"; CStr "cough"];
          [CStr "2015-01-04"; CNum 0; CNum 0]].
Proof.
  refine (GetQueryVolumes_unrequested_terms (constant_service renaming_response)
            flu_cough "2011-01-01" "2015-01-01" "US" "country" "week"
            _ [the_build; EvExecute flu_cough_request (Ok renaming_response);
               EvSleep 1]
            "influenza" "2015-01-04" 7 _ _ _).
  - vm_compute. reflexivity.
  - apply list_elem_of_here.
  - intros t w Hin. apply list_elem_of_singleton in Hin. injection Hin as -> _.
    intros [Heq|[Heq|Hnil%elem_of_nil]%elem_of_cons]%elem_of_cons;
      [discriminate Heq|discriminate Heq|done].
Defined.

(** X12. The table invents nothing: a number in the column of a term, in
    the row of a date, is 0 or the value of a point received for that term
    whose date DateToISOString turns into the date of the row. *)
Theorem GetQueryVolumes_values_received (env : Environment)
    (queries : list string)
    (start_date end_date geo geo_level frequency : string)
    (tbl : list (list Cell)) (tr : list Event) (i j : nat)
    (row : list Cell) (cell : Cell)
    (Hrun : run (GetQueryVolumes env queries start_date end_date geo
                   geo_level frequency) = (Ok tbl, tr))
    (Hrow : tbl !! S i = Some row) (Hcell : row !! S j = Some cell) :
  exists date term v,
    row !! 0%nat = Some (CStr date) /\ queries !! j = Some term
    /\ cell = CNum v
    /\ (v = 0
        \/ exists res line point,
             res ∈ received_responses tr /\ line ∈ lines res
             /\ point ∈ l_points line /\ l_term line = term
             /\ DateToISOString (p_date point) = Ok date
             /\ p_value point = v).
Proof.
  apply GetQueryVolumes_Ok in Hrun as (key & exs & _ & _ & _ & _ & _ & ->).
  simpl in Hrow. rewrite list_lookup_fmap in Hrow.
  destruct (dates_of (merged tr) !! i) as [date|]; [|done].
  injection Hrow as <-. simpl in Hcell. rewrite list_lookup_fmap in Hcell.
  destruct (queries !! j) as [term|]; [|done]. injection Hcell as <-.
  exists date, term, (default 0 (merged tr !! (term, date))).
  split; [done|]. split; [done|]. split; [done|].
  destruct (merged tr !! (term, date)) as [v|] eqn:Hv; [right|by left].
  apply elem_of_list_to_map_2 in Hv. rewrite elem_of_reverse in Hv.
  apply list_elem_of_In, in_flat_map in Hv as (res & Hres & Hv).
  apply in_flat_map in Hv as (line & Hline & Hv).
  apply list_elem_of_In, list_elem_of_omap in Hv as (point & Hpoint & Hk).
  unfold keyed_point in Hk.
  destruct (DateToISOString (p_date point)) as [date'|] eqn:Hd; [|done].
  injection Hk as <- <- <-.
  exists res, line, point. apply list_elem_of_In in Hres, Hline. done.
Qed.

Lemma GetQueryVolumes_values_received_flu :
  exists date term v,
    [CStr "2015-01-01"; CNum 5; CNum 0] !! 0%nat = Some (CStr date)
    /\ flu_cough !! 0%nat = Some term
    /\ CNum 5 = CNum v
    /\ (v = 0
        \/ exists res line point,
             res ∈ received_responses
                     [the_build; EvExecute flu_cough_request (Ok flu_response);
                      EvSleep 1]
             /\ line ∈ lines res
             /\ point ∈ l_points line /\ l_term line = term
             /\ DateToISOString (p_date point) = Ok date
             /\ p_value point = v).
Proof.
  refine (GetQueryVolumes_values_received (constant_service flu_response)
            flu_cough "2011-01-01" "2015-01-01" "US" "country" "week"
            [[CStr "date"; CStr "flu"; CStr "cough"];
             [CStr "2015-01-01"; CNum 5; CNum 0]] _ 0 0 _ _ _ _ _);
    vm_compute; reflexivity.
Defined.

(** ** Rows in the order of the calendar *)

Lemma matches_pattern_year (p : pattern) (l : list ascii) (y m d : Z) :
  matches_pattern p l y m d ->
  exists front yyyy, l = front ++ yyyy /\ year_text y yyyy.
Proof.
  destruct p.
  - intros (mon & ws1 & dd & ws2 & yyyy & -> & _ & _ & _ & _ & Hy).
    exists (mon ++ ws1 ++ dd ++ ws2), yyyy. by rewrite <- !app_assoc.
  - intros (mon & ws & yyyy & -> & _ & _ & Hy & _).
    exists (mon ++ ws), yyyy. by rewrite <- !app_assoc.
  - intros (Hy & _). by exists [], l.
Qed.

(** The year of an accepted text is the number its last four characters
    write. *)
Lemma matches_pattern_year_last (p : pattern) (l : list ascii) (y m d : Z) :
  matches_pattern p l y m d -> y = number (drop (length l - 4) l).
Proof.
  intros (front & yyyy & -> & _ & Hlen & <-)%matches_pattern_year.
  rewrite length_app, Hlen.
  replace (length front + 4 - 4)%nat with (length front) by lia.
  by rewrite drop_app_length.
Qed.

Lemma merged_date_calendar (tr : list Event) (term date : string) :
  Forall from_year_1000 (received_responses tr) ->
  is_Some (merged tr !! (term, date)) ->
  exists dt, (is_calendar_date dt /\ 1000 <= year dt) /\ date = strftime_Y_m_d dt.
Proof.
  intros Hyears [v Hv]. apply elem_of_list_to_map_2 in Hv.
  rewrite elem_of_reverse in Hv.
  apply list_elem_of_In, in_flat_map in Hv as (res & Hres & Hv).
  apply in_flat_map in Hv as (line & Hline & Hv).
  apply list_elem_of_In, list_elem_of_omap in Hv as (point & Hpoint & Hk).
  apply list_elem_of_In in Hres, Hline.
  unfold keyed_point in Hk.
  destruct (DateToISOString (p_date point)) as [date'|] eqn:Hd; [|done].
  injection Hk as _ <- _.
  apply DateToISOString_Ok in Hd as (p & y & m & d & Hm & Hcal & ->).
  exists (mk_datetime y m d). split; [|done]. split; [done|].
  rewrite Forall_forall in Hyears.
  exact (Hyears res Hres line point p y m d Hline Hpoint Hm).
Qed.

Lemma dates_of_datetimes (P : datetime -> Prop) (l : list string) :
  Forall (fun date => exists dt, P dt /\ date = strftime_Y_m_d dt) l ->
  exists dts, l = map strftime_Y_m_d dts /\ Forall P dts.
Proof.
  induction 1 as [|date l (dt & Hcal & ->) _ (dts & -> & Hall)].
  - by exists [].
  - exists (dt :: dts). split; [done|by constructor].
Qed.

Lemma StronglySorted_dates (dts : list datetime) :
  Forall (fun dt => is_calendar_date dt /\ 1000 <= year dt) dts ->
  StronglySorted string_lt (map strftime_Y_m_d dts) ->
  StronglySorted (fun a b => date_compare a b = Lt) dts.
Proof.
  induction 1 as [|a dts [Ha Hya] Hall IH]; simpl; [constructor|].
  inversion_clear 1 as [|? ? Hs Hlt]. constructor; [by apply IH|].
  apply Forall_forall. intros b Hb.
  destruct (proj1 (Forall_forall _ _) Hall b Hb) as [Hcal Hyb].
  rewrite <- strftime_compare by done. apply string_lt_compare.
  apply (proj1 (Forall_forall _ _) Hlt).
  apply list_elem_of_fmap. eauto.
Qed.

(** X13. When no date received is of a year before 1000, the rows of a
    returned table are in the order of the calendar: each starts with the
    ISO text of a date of the calendar, and every row names a day strictly
    earlier than the rows after it. *)
Theorem GetQueryVolumes_rows_chronological (env : Environment)
    (queries : list string)
    (start_date end_date geo geo_level frequency : string)
    (tbl : list (list Cell)) (tr : list Event)
    (Hrun : run (GetQueryVolumes env queries start_date end_date geo
                   geo_level frequency) = (Ok tbl, tr))
    (Hyears : Forall from_year_1000 (received_responses tr)) :
  exists dts : list datetime,
    map row_date (tail tbl) = map (fun dt => Some (strftime_Y_m_d dt)) dts
    /\ Forall is_calendar_date dts
    /\ StronglySorted (fun a b => date_compare a b = Lt) dts.
Proof.
  apply GetQueryVolumes_Ok in Hrun as (key & exs & _ & _ & _ & _ & _ & ->).
  destruct (dates_of_datetimes
              (fun dt => is_calendar_date dt /\ 1000 <= year dt)
              (dates_of (merged tr))) as (dts & Hdts & Hcal).
  { apply Forall_forall. intros date [term Hsome]%elem_of_dates_of.
    by eapply merged_date_calendar. }
  exists dts. simpl. rewrite row_date_table_row, Hdts, map_map.
  split; [done|]. split; [by eapply Forall_impl; [exact Hcal|intros ? []]|].
  apply StronglySorted_dates; [done|]. rewrite <- Hdts. apply dates_of_sorted.
Qed.

Lemma GetQueryVolumes_rows_chronological_unordered :
  exists dts : list datetime,
    map row_date
      (tail [[CStr "date"; CStr "flu"; CStr "cough"];
             [CStr "2014-01-01"; CNum 0; CNum 9];
             [CStr "2015-01-04"; CNum 1; CNum 2];
             [CStr "2015-03-01"; CNum 3; CNum 0]])
    = map (fun dt => Some (strftime_Y_m_d dt)) dts
    /\ Forall is_calendar_date dts
    /\ StronglySorted (fun a b => date_compare a b = Lt) dts.
Proof.
  refine (GetQueryVolumes_rows_chronological (constant_service unordered_response)
            flu_cough "2011-01-01" "2015-01-01" "US" "country" "week" _
            [the_build; EvExecute flu_cough_request (Ok unordered_response);
             EvSleep 1] _ _).
  - vm_compute. reflexivity.
  - repeat constructor.
    intros line point p y m d Hline Hpoint ->%matches_pattern_year_last.
    simpl in Hline.
    repeat (apply elem_of_cons in Hline as [-> | Hline]);
      [..|by apply elem_of_nil in Hline];
      simpl in Hpoint;
      repeat (apply elem_of_cons in Hpoint as [-> | Hpoint]);
      try (by apply elem_of_nil in Hpoint); by vm_compute.
Defined.

(** A date before the year 1000 breaks that order: the row of the first of
    January 999 comes after the row of the fourth of January 2015. *)
Example GetQueryVolumes_rows_early_year :
  run (GetQueryVolumes (constant_service early_response) flu_cough
         "2011-01-01" "2015-01-01" "US" "country" "week")
  = (Ok [[CStr "date"; CStr "flu"; CStr "cough"];
         [CStr "2015-01-04"; CNum 1; CNum 0];
         [CStr "999-01-01"; CNum 4; CNum 0]],
     [the_build; EvExecute flu_cough_request (Ok early_response); EvSleep 1]).
Proof. vm_compute. reflexivity. Qed.

(** ** [main] *)

(** A call with two queries that returns has made one request. *)
Lemma GetQueryVolumes_one_batch (env : Environment) (q1 q2 : string)
    (start_date end_date geo geo_level frequency : string)
    (tbl : list (list Cell)) (tr0 tr1 : list Event) :
  GetQueryVolumes env [q1; q2] start_date end_date geo geo_level frequency tr0
  = (Ok tbl, tr1) ->
  exists key req res,
    API_KEY env = Some key
    /\ tr1 = tr0 ++ [EvBuild "trends" API_VERSION key DISCOVERY_URL (Ok tt);
                    EvExecute req (Ok res); EvSleep 1]
    /\ make_request [q1; q2] start_date end_date geo geo_level frequency = Ok req
    /\ tbl = make_table [q1; q2] (merged [EvExecute req (Ok res)]).
Proof.
  intros [(_ & ? & _)|(key & Hkey & _ & [(e & ? & _)|(exs & stop & -> & Hall
                                                    & _ & Hend)])]%GetQueryVolumes_shape;
    try done.
  destruct (stop_error stop) as [e|] eqn:Hstop; [by destruct Hend|].
  destruct Hend as [Hlen [= ->]]. destruct stop; try discriminate.
  change (range 0 (length [q1; q2]) MAX_QUERIES) with [0%nat] in *.
  destruct exs as [|[req res] [|ex exs]]; try discriminate.
  simpl in Hall. inversion_clear Hall as [|? ? ? ? Hreq _].
  exists key, req, res. split; [done|]. split; [done|]. split; [done|].
  unfold merged, all_points. simpl. by rewrite !app_nil_r.
Qed.

(** X14. As published, with no API key, main raises the ValueError about
    the key at its first call: it builds nothing, requests nothing and
    writes no row. *)
Theorem main_unconfigured (env : Environment)
    (Hkey : truthy (API_KEY env) = false) :
  run (main env) = (Raise ConfigurationError, []).
Proof.
  unfold run, main, bind, GetQueryVolumes. by rewrite Hkey.
Qed.

Lemma main_unconfigured_published :
  run (main unconfigured) = (Raise ConfigurationError, []).
Proof. apply main_unconfigured. reflexivity. Defined.

(** X15. When main goes through, it has built the service three times and
    made three requests for flu and cough from 2011-01-01 to 2015-01-01,
    each followed by a pause: weekly for the country US, daily for the
    region US-MA, monthly for the DMA 506. The rows it writes are the table
    of the first response alone; the other two responses are fetched and
    left unused. *)
Theorem main_writes_us_weekly (env : Environment)
    (rows : list (list Cell)) (tr : list Event)
    (Hrun : run (main env) = (Ok rows, tr)) :
  exists key res1 res2 res3,
    let built := EvBuild "trends" API_VERSION key DISCOVERY_URL (Ok tt) in
    tr = [built; EvExecute us_weekly_request (Ok res1); EvSleep 1;
          built; EvExecute ma_region_daily_request (Ok res2); EvSleep 1;
          built; EvExecute boston_dma_monthly_request (Ok res3); EvSleep 1]
    /\ rows = make_table ["flu"; "cough"]%string
                (merged [EvExecute us_weekly_request (Ok res1)]).
Proof.
  revert Hrun. unfold run, main. unfold bind at 1.
  destruct (GetQueryVolumes _ _ _ _ _ _ _ []) as [[t1|e] tr1] eqn:H1;
    [|discriminate].
  unfold bind at 1.
  destruct (GetQueryVolumes _ _ _ _ _ _ _ tr1) as [[t2|e] tr2] eqn:H2;
    [|discriminate].
  unfold bind at 1.
  destruct (GetQueryVolumes _ _ _ _ _ _ _ tr2) as [[t3|e] tr3] eqn:H3;
    [|discriminate].
  unfold ret. intros [= -> ->].
  apply GetQueryVolumes_one_batch in H1 as (key & q1 & res1 & Hkey & -> & Hq1 & ->).
  apply GetQueryVolumes_one_batch in H2 as (key2 & q2 & res2 & Hkey2 & -> & Hq2 & _).
  apply GetQueryVolumes_one_batch in H3 as (key3 & q3 & res3 & Hkey3 & -> & Hq3 & _).
  injection Hq1 as <-. injection Hq2 as <-. injection Hq3 as <-.
  assert (key2 = key) as -> by congruence.
  assert (key3 = key) as -> by congruence.
  by exists key, res1, res2, res3.
Qed.

Lemma main_writes_us_weekly_by_resolution :
  exists key res1 res2 res3,
    let built := EvBuild "trends" API_VERSION key DISCOVERY_URL (Ok tt) in
    [the_build; EvExecute us_weekly_request (Ok flu_response); EvSleep 1;
     the_build; EvExecute ma_region_daily_request (Ok unordered_response);
     EvSleep 1;
     the_build; EvExecute boston_dma_monthly_request (Ok renaming_response);
     EvSleep 1]
    = [built; EvExecute us_weekly_request (Ok res1); EvSleep 1;
       built; EvExecute ma_region_daily_request (Ok res2); EvSleep 1;
       built; EvExecute boston_dma_monthly_request (Ok res3); EvSleep 1]
    /\ [[CStr "date"; CStr "flu"; CStr "cough"];
        [CStr "2015-01-01"; CNum 5; CNum 0]]
       = make_table ["flu"; "cough"]%string
           (merged [EvExecute us_weekly_request (Ok res1)]).
Proof.
  apply (main_writes_us_weekly by_resolution). vm_compute. reflexivity.
Defined.

(** ** The year of the result *)

Lemma digit_char_zero (k : Z) :
  0 <= k <= 9 -> Ascii.eqb (Char.digit_char k) "0" = (k =? 0).
Proof. intros Hk. digit_cases_of k Hk; reflexivity. Qed.

(** [%Y] writes the four digits of the year that was read, from the
    first that is not 0 on. *)
Lemma year_digits_number (y : Z) (yyyy : list ascii) :
  year_text y yyyy -> 1 <= y -> year_digits y = strip_zeros yyyy.
Proof.
  intros (Hdig & Hlen & <-).
  destruct yyyy as [|c1 [|c2 [|c3 [|c4 [|c5 yyyy]]]]]; try discriminate.
  unfold digits in Hdig.
  inversion_clear Hdig as [|? ? H1 Hdig1].
  inversion_clear Hdig1 as [|? ? H2 Hdig2].
  inversion_clear Hdig2 as [|? ? H3 Hdig3].
  inversion_clear Hdig3 as [|? ? H4 _].
  apply digit_cases in H1 as (k1 & Hk1 & ->).
  apply digit_cases in H2 as (k2 & Hk2 & ->).
  apply digit_cases in H3 as (k3 & Hk3 & ->).
  apply digit_cases in H4 as (k4 & Hk4 & ->).
  unfold number. cbn [foldl strip_zeros].
  rewrite !(proj1 (proj2 (digit_char_spec _ Hk1))),
    !(proj1 (proj2 (digit_char_spec _ Hk2))),
    !(proj1 (proj2 (digit_char_spec _ Hk3))),
    !(proj1 (proj2 (digit_char_spec _ Hk4))).
  rewrite !digit_char_zero by done.
  set (n := 10 * (10 * (10 * (10 * 0 + k1) + k2) + k3) + k4).
  intros Hn. unfold year_digits, zero_pad4, zero_pad2.
  assert (n / 1000 mod 10 = k1) as E1 by (subst n; zdiv).
  assert (n / 100 mod 10 = k2) as E2 by (subst n; zdiv).
  assert (n / 10 mod 10 = k3) as E3 by (subst n; zdiv).
  assert (n mod 10 = k4) as E4 by (subst n; zdiv).
  rewrite E1, E2, E3, E4.
  destruct (Z.ltb_spec n 10), (Z.ltb_spec n 100), (Z.ltb_spec n 1000),
    (Z.eqb_spec k1 0), (Z.eqb_spec k2 0), (Z.eqb_spec k3 0), (Z.eqb_spec k4 0);
    first [exfalso; subst n; lia | reflexivity | repeat f_equal; subst n; lia].
Qed.

(** X16. The year of the result is the year of the input without its
    leading zeros: an accepted string ends with four digits, and the date
    returned starts with these digits from the first that is not 0 on,
    followed by a hyphen, the two digits of the month, a hyphen and the two
    digits of the day. 0999 gives 999-01-01. (A string is a sequence of
    characters below code point 256, so that a digit is one of 0 to 9.) *)
Theorem DateToISOString_year_unpadded (datestring r : string)
    (Hok : DateToISOString datestring = Ok r) :
  exists front yyyy rest,
    list_ascii_of_string datestring = front ++ yyyy
    /\ length yyyy = 4%nat /\ digits yyyy
    /\ strip_zeros yyyy <> []
    /\ list_ascii_of_string r = strip_zeros yyyy ++ "-"%char :: rest
    /\ length rest = 5%nat.
Proof.
  apply DateToISOString_Ok in Hok as (p & y & m & d & Hm & Hcal & ->).
  apply matches_pattern_year in Hm as (front & yyyy & Hl & Hy).
  destruct Hcal as (Hyr & _).
  pose proof (year_digits_number y yyyy Hy ltac:(lia)) as Hdig.
  destruct (year_digits_head y) as (k & tl & _ & Hhead); [lia|].
  exists front, yyyy. eexists. split; [done|].
  split; [apply Hy|]. split; [apply Hy|].
  split; [by rewrite <- Hdig, Hhead|].
  unfold strftime_Y_m_d. rewrite list_ascii_of_string_of_list_ascii.
  simpl year. rewrite Hdig. split; reflexivity.
Qed.

Lemma DateToISOString_year_unpadded_0999 :
  exists front yyyy rest,
    list_ascii_of_string "0999" = front ++ yyyy
    /\ length yyyy = 4%nat /\ digits yyyy
    /\ strip_zeros yyyy <> []
    /\ list_ascii_of_string "999-01-01" = strip_zeros yyyy ++ "-"%char :: rest
    /\ length rest = 5%nat.
Proof.
  apply (DateToISOString_year_unpadded "0999" "999-01-01"). reflexivity.
Defined.
